(** * The Categorised distribution of scVAE

    A shallow embedding of [scvae/distributions/categorised.py] and of the
    fragment of TensorFlow / TensorFlow Probability that the class calls.

    The class is graph-building code: a method call runs Python, which
    creates operations and hands back a symbolic tensor; evaluating that
    tensor later runs the operations.  The embedding keeps the two stages
    apart:

    - [Py A] is the Python stage: it may raise an exception and it records
      the calls made to the two component distributions;
    - [Node A] is a symbolic tensor: what evaluating it yields, a tensor
      value or a run-time error.

    Floating-point numbers are idealised as real numbers, so there is
    no rounding and no NaN; Python integers are [Z], and the cast to
    [int32] keeps its range.  A tensor value is a shape together with the
    entry at each multi-index, and elementwise operations broadcast as
    TensorFlow does.  The [_graph_parents] lists live in a store of list
    objects, since the constructor extends one of them in place; the
    name stack of the graph, which decides whether a name opens a scope,
    is an argument of the constructor. *)

From Stdlib Require Import ZArith List Ascii String Reals Lra Lia Bool.
From stdpp Require Import gmap.

Local Open Scope string_scope.
Local Open Scope list_scope.
Local Open Scope Z_scope.

(** ** Outcomes *)

Inductive outcome (E A : Type) : Type :=
| Done (a : A)
| Fail (e : E).
Arguments Done {E A} a.
Arguments Fail {E A} e.

Definition obind {E A B} (m : outcome E A) (f : A -> outcome E B) : outcome E B :=
  match m with
  | Done a => f a
  | Fail e => Fail e
  end.

Definition omap {E A B} (f : A -> B) (m : outcome E A) : outcome E B :=
  obind m (fun a => Done (f a)).

(** Exceptions raised while Python runs.  [InvalidArgument] is
    TensorFlow's [InvalidArgumentError] when it is raised while the graph
    is built. *)
Inductive PyError : Type :=
| TypeError (msg : string)
| ValueError (msg : string)
| IndexError (msg : string)
| NotImplementedError (msg : string)
| InvalidArgument (msg : string).

(** Errors raised while a graph is evaluated. *)
Inductive RunError : Type :=
| InvalidArgumentError (msg : string).

(** Calls to collaborators, in the order Python makes them. *)
Inductive Call : Type :=
| CallSoftmax
| CallCatLogProb
| CallDistMean
| CallDistVariance
| CallDistLogProb.

(** ** The Python stage: exceptions and a log of collaborator calls *)

Definition Py (A : Type) : Type := (list Call * outcome PyError A)%type.

Definition ret {A} (a : A) : Py A := ([], Done a).
Definition raise {A} (e : PyError) : Py A := ([], Fail e).
Definition tell (c : Call) : Py unit := ([c], Done tt).
Definition lift {A} (r : outcome PyError A) : Py A := ([], r).

Definition bind {A B} (m : Py A) (f : A -> Py B) : Py B :=
  match m with
  | (t1, Done a) => let '(t2, r) := f a in (t1 ++ t2, r)
  | (t1, Fail e) => (t1, Fail e)
  end.

Declare Scope py_scope.
Delimit Scope py_scope with py.
Notation "x <- m ;; k" := (bind m (fun x => k))
  (at level 100, m at next level, right associativity) : py_scope.

Definition calls {A} (m : Py A) : list Call := fst m.
Definition value {A} (m : Py A) : outcome PyError A := snd m.

(** [for x in l] collecting the results, as a list comprehension does. *)
Fixpoint comprehension {A B} (f : A -> Py B) (l : list A) : Py (list B) :=
  match l with
  | [] => ret []
  | a :: l' => (b <- f a ;; bs <- comprehension f l' ;; ret (b :: bs))%py
  end.

(** Python's [range(n)]. *)
Definition range (n : Z) : list Z := map Z.of_nat (seq 0 (Z.to_nat n)).

(** Python's [l[i]], negative indices counting from the end. *)
Definition getitem {A} (l : list A) (i : Z) : Py A :=
  let n := Z.of_nat (length l) in
  let j := if i <? 0 then n + i else i in
  if (0 <=? j) && (j <? n) then
    match nth_error l (Z.to_nat j) with
    | Some a => ret a
    | None => raise (IndexError "list index out of range")
    end
  else raise (IndexError "list index out of range").

(** ** Tensors *)

(** A tensor value: its shape and the entry at each multi-index. *)
Record Tensor (A : Type) : Type := mkTensor {
  shape : list nat;
  at_index : list nat -> A
}.
Arguments mkTensor {A} shape at_index.
Arguments shape {A} t.
Arguments at_index {A} t idx.

(** A symbolic tensor, by what its evaluation yields. *)
Abbreviation Node A := (outcome RunError (Tensor A)).

(** [idx] is a position inside a tensor of shape [s]. *)
Definition in_shape (idx s : list nat) : Prop := Forall2 lt idx s.

(** All positions of a shape, in row-major order. *)
Fixpoint indices (s : list nat) : list (list nat) :=
  match s with
  | [] => [[]]
  | d :: s' => flat_map (fun i => map (cons i) (indices s')) (seq 0 d)
  end.

(** *** Broadcasting *)

Definition broadcast_dim (a b : nat) : option nat :=
  if Nat.eqb a b then Some a
  else if Nat.eqb a 1 then Some b
  else if Nat.eqb b 1 then Some a
  else None.

(** Shapes are aligned at their last dimension; the arguments are the
    reversed shapes. *)
Fixpoint broadcast_rev (r1 r2 : list nat) : option (list nat) :=
  match r1, r2 with
  | [], _ => Some r2
  | _, [] => Some r1
  | a :: r1', b :: r2' =>
      match broadcast_dim a b, broadcast_rev r1' r2' with
      | Some d, Some r => Some (d :: r)
      | _, _ => None
      end
  end.

Definition broadcast_shapes (s1 s2 : list nat) : option (list nat) :=
  option_map (@rev nat) (broadcast_rev (rev s1) (rev s2)).

(** The position in an operand of shape [s] that feeds position [idx] of
    the broadcast result. *)
Fixpoint project_rev (rs ridx : list nat) : list nat :=
  match rs, ridx with
  | d :: rs', i :: ridx' => (if Nat.eqb d 1 then 0%nat else i) :: project_rev rs' ridx'
  | _, _ => []
  end.

Definition project (s idx : list nat) : list nat :=
  rev (project_rev (rev s) (rev idx)).

Definition incompatible_shapes : RunError :=
  InvalidArgumentError "Incompatible shapes".

(** An elementwise binary operation with broadcasting. *)
Definition binary {A B C} (f : A -> B -> C) (a : Node A) (b : Node B) : Node C :=
  obind a (fun ta =>
  obind b (fun tb =>
    match broadcast_shapes (shape ta) (shape tb) with
    | Some s =>
        Done (mkTensor s (fun idx =>
          f (at_index ta (project (shape ta) idx))
            (at_index tb (project (shape tb) idx))))
    | None => Fail incompatible_shapes
    end)).

(** An elementwise unary operation. *)
Definition unary {A B} (f : A -> B) (a : Node A) : Node B :=
  omap (fun ta => mkTensor (shape ta) (fun idx => f (at_index ta idx))) a.

(** [ops.convert_to_tensor]: a Python number becomes a scalar tensor. *)
Definition constant {A} (v : A) : Node A := Done (mkTensor [] (fun _ => v)).
Definition convert_to_tensor {A} (x : Node A) : Node A := x.

(** ** The TensorFlow operations the class uses *)

Module tf.

(** Python's arithmetic operators on tensors: elementwise, broadcasting. *)
Definition add : Node R -> Node R -> Node R := binary Rplus.
Definition sub : Node R -> Node R -> Node R := binary Rminus.
Definition mul : Node R -> Node R -> Node R := binary Rmult.

Definition Rlt_bool (a b : R) : bool := if Rlt_dec a b then true else false.
Definition less : Node R -> Node R -> Node bool := binary Rlt_bool.

(** [math_ops.square] and [math_ops.exp]. *)
Definition square : Node R -> Node R := unary (fun v => v * v)%R.
Definition exp : Node R -> Node R := unary Rtrigo_def.exp.

(** [clip_ops.clip_by_value]: the minimum with the upper bound, then the
    maximum with the lower bound. *)
Definition clip_by_value (t : Node R) (clip_value_min clip_value_max : Z) : Node R :=
  let t_min := binary Rmin t (constant (IZR clip_value_max)) in
  binary Rmax t_min (constant (IZR clip_value_min)).

(** [math_ops.cast(_, dtypes.int32)] of a floating-point value: the
    fraction is dropped; a value outside the 32-bit range has no defined
    conversion and comes out as the smallest 32-bit integer. *)
Definition int32_min : Z := - 2147483648.
Definition int32_max : Z := 2147483647.

Definition truncate (r : R) : Z :=
  if Rle_dec 0 r then Zfloor r else Zceil r.

Definition to_int32 (r : R) : Z :=
  let z := truncate r in
  if (int32_min <=? z) && (z <=? int32_max) then z else int32_min.

Definition cast_int32 : Node R -> Node Z := unary to_int32.

(** The sum of the exponentials along the last axis, at the row of [idx]. *)
Definition sum_exp (t : Tensor R) (idx : list nat) : R :=
  fold_right Rplus 0%R
    (map (fun j => Rtrigo_def.exp (at_index t (removelast idx ++ [j])))
         (seq 0 (List.last (shape t) 0%nat))).

Definition rank_error : RunError :=
  InvalidArgumentError "logits must have >= 1 dimension".

(** [nn_ops.softmax] and [nn_ops.log_softmax], along the last axis. *)
Definition softmax (logits : Node R) : Node R :=
  obind logits (fun t =>
    match shape t with
    | [] => Fail rank_error
    | _ => Done (mkTensor (shape t)
             (fun idx => Rtrigo_def.exp (at_index t idx) / sum_exp t idx)%R)
    end).

Definition log_softmax (logits : Node R) : Node R :=
  obind logits (fun t =>
    match shape t with
    | [] => Fail rank_error
    | _ => Done (mkTensor (shape t)
             (fun idx => at_index t idx - ln (sum_exp t idx))%R)
    end).

(** [array_ops.unstack(value, num, axis=-1)]: the [num] slices along the
    last axis. *)
Definition slice_last (k : nat) (num : Z) (value : Node R) : Node R :=
  obind value (fun t =>
    match shape t with
    | [] => Fail (InvalidArgumentError "cannot unstack a scalar")
    | _ =>
        if Z.of_nat (List.last (shape t) 0%nat) =? num then
          Done (mkTensor (removelast (shape t))
                  (fun idx => at_index t (idx ++ [k])))
        else Fail (InvalidArgumentError "unstack: num does not match the axis")
    end).

Definition unstack (value : Node R) (num : Z) : list (Node R) :=
  map (fun k => slice_last k num value) (seq 0 (Z.to_nat num)).

(** [math_ops.add_n]: refuses an empty list; the inputs must agree in
    shape (no broadcasting). *)
Definition add_same_shape (a b : Node R) : Node R :=
  obind a (fun ta =>
  obind b (fun tb =>
    if decide (shape ta = shape tb) then
      Done (mkTensor (shape ta) (fun idx => at_index ta idx + at_index tb idx)%R)
    else
      Fail (InvalidArgumentError
              "Inputs to operation AddN must have the same size and shape"))).

Definition add_n (inputs : list (Node R)) : Py (Node R) :=
  match inputs with
  | [] =>
      raise (ValueError
        "inputs must be a list of at least one Tensor/IndexedSlices with the same dtype and shape")
  | n :: ns => ret (fold_left add_same_shape ns n)
  end.

(** [tensorflow.where(condition, x, y)]: [x] and [y] have one shape; the
    condition has that shape too, or is a vector that selects whole rows. *)
Definition where_ {A} (condition : Node bool) (x y : Node A) : Node A :=
  obind condition (fun tc =>
  obind x (fun tx =>
  obind y (fun ty =>
    if decide (shape tx = shape ty) then
      if decide (shape tc = shape tx) then
        Done (mkTensor (shape tx)
                (fun idx => if at_index tc idx then at_index tx idx
                            else at_index ty idx))
      else
        match shape tc, shape tx with
        | [n], m :: _ =>
            if decide (n = m) then
              Done (mkTensor (shape tx)
                      (fun idx => if at_index tc (firstn 1 idx) then at_index tx idx
                                  else at_index ty idx))
            else Fail incompatible_shapes
        | _, _ => Fail incompatible_shapes
        end
    else Fail incompatible_shapes))).

(** A symbolic tensor of integers as the constructor sees it: its value
    when the graph runs, and whether that value is a constant known
    while the graph is built ([tensor_util.constant_value]). *)
Record SymbolicTensor (A : Type) : Type := mkSymbolic {
  run_value : A;
  is_constant : bool
}.
Arguments mkSymbolic {A} run_value is_constant.
Arguments run_value {A} s.
Arguments is_constant {A} s.

Definition constant_value {A} (t : SymbolicTensor A) : option A :=
  if is_constant t then Some (run_value t) else None.

Definition IntTensor : Type := SymbolicTensor Z.
Definition mkIntTensor (v : Z) (known : bool) : IntTensor := mkSymbolic v known.

(** A static [TensorShape]: unknown rank, or known rank with dimensions
    that may each be unknown. *)
Definition TensorShape : Type := option (list (option nat)).

Definition ndims (s : TensorShape) : option nat := option_map (@length _) s.

Definition is_fully_defined (s : TensorShape) : bool :=
  match s with
  | Some dims => forallb (fun d => match d with Some _ => true | None => false end) dims
  | None => false
  end.

(** What [batch_shape_tensor()] of a distribution returns: a vector that
    is a graph constant when the static batch shape is fully defined,
    and whose length is known statically when the static rank is. *)
Record ShapeTensor : Type := mkShapeTensor {
  vector : SymbolicTensor (list nat);
  length_static : bool
}.

Definition shape_tensor (static : TensorShape) (dims : list nat) : ShapeTensor :=
  mkShapeTensor (mkSymbolic dims (is_fully_defined static))
                (match ndims static with Some _ => true | None => false end).

(** [array_ops.size] of a shape vector: a constant when the length of
    the vector is known statically. *)
Definition size (t : ShapeTensor) : SymbolicTensor nat :=
  mkSymbolic (length (run_value (vector t))) (length_static t).

(** An assertion in the graph: an operation that, when it runs, fails
    with [message] unless it [holds]. *)
Record Assertion : Type := mkAssertion {
  holds : bool;
  message : string
}.

(** [check_ops.assert_equal(x, y, message)].  When both operands are
    constants of the graph the comparison is made at once, and unequal
    operands raise [InvalidArgumentError] while the graph is built (its
    text starts with [message]; the rendering of the operands that
    follows is left out); otherwise, and also after a comparison that
    passed, the result is an assertion to run with the graph. *)
Definition assert_equal {A} `{EqDecision A}
    (x y : SymbolicTensor A) (message : string) : outcome PyError Assertion :=
  let assertion := mkAssertion (bool_decide (run_value x = run_value y)) message in
  match constant_value x, constant_value y with
  | Some x_static, Some y_static =>
      if bool_decide (x_static = y_static) then Done assertion
      else Fail (InvalidArgument message)
  | _, _ => Done assertion
  end.

(** The names [ops.name_scope] accepts.  An empty name is accepted; at
    the root of the name stack a name must match
    [^[A-Za-z0-9.][A-Za-z0-9_.\-/>]*$], inside another scope
    [^[A-Za-z0-9_.\-/>]*$]; as in Python's [re.match], [$] also matches
    before a final newline.  (Versions of TensorFlow differ on [>]; it
    is taken as admitted.) *)
Definition is_op_start (a : ascii) : bool :=
  let n := nat_of_ascii a in
  ((65 <=? n) && (n <=? 90))%nat || ((97 <=? n) && (n <=? 122))%nat
  || ((48 <=? n) && (n <=? 57))%nat || (n =? 46)%nat.

Definition is_scope_char (a : ascii) : bool :=
  let n := nat_of_ascii a in
  is_op_start a || (n =? 95)%nat || (n =? 45)%nat || (n =? 47)%nat
  || (n =? 62)%nat.

Fixpoint scope_chars (s : string) : bool :=
  match s with
  | EmptyString => true
  | String a EmptyString => is_scope_char a || (nat_of_ascii a =? 10)%nat
  | String a rest => is_scope_char a && scope_chars rest
  end.

Definition valid_scope_name (name_stack name : string) : bool :=
  match name with
  | EmptyString => true
  | String a rest =>
      match name_stack with
      | EmptyString => is_op_start a && scope_chars rest
      | _ => scope_chars name
      end
  end.

(** Entering [with ops.name_scope(name, ...)]. *)
Definition name_scope (name_stack name : string) : outcome PyError unit :=
  if valid_scope_name name_stack name then Done tt
  else Fail (ValueError "not a valid scope name").

Fixpoint run_assertions (l : list Assertion) : outcome RunError unit :=
  match l with
  | [] => Done tt
  | a :: l' =>
      if holds a then run_assertions l'
      else Fail (InvalidArgumentError (message a))
  end.

(** [with ops.control_dependencies(assertions): ...]: whatever the block
    builds runs only after the assertions have run. *)
Definition control_dependencies {A}
    (assertions : list Assertion) (block : Py (Node A)) : Py (Node A) :=
  (n <- block ;; ret (obind (run_assertions assertions) (fun _ => n)))%py.

End tf.

(** ** The component distributions *)

Inductive DType : Type := float32 | float64 | int32.

(** A Python list object is known by its location; [_graph_parents]
    attributes hold such locations, so two attributes may name one list.
    The entries of a graph-parents list are tensors, known by number. *)
Abbreviation loc := positive (only parsing).
Abbreviation store := (gmap positive (list nat)) (only parsing).

Definition list_at (σ : store) (l : loc) : list nat := default [] (σ !! l).

(** Python's [target += source] on lists: [target] is extended in place. *)
Definition list_iadd (σ : store) (target source : loc) : store :=
  <[target := list_at σ target ++ list_at σ source]> σ.

(** What the class uses of [distribution.Distribution]. *)
Module distribution.

Record Distribution : Type := mkDistribution {
  dtype : DType;
  event_shape : tf.TensorShape;
  batch_shape : tf.TensorShape;
  batch_shape_tensor : list nat;
  mean : outcome PyError (Node R);
  variance : outcome PyError (Node R);
  log_prob : Node R -> outcome PyError (Node R);
  _graph_parents : loc
}.

(** The tensor [batch_shape_tensor()] returns; the field
    [batch_shape_tensor] is its value when the graph runs. *)
Definition symbolic_batch_shape (d : Distribution) : tf.ShapeTensor :=
  tf.shape_tensor (batch_shape d) (batch_shape_tensor d).

End distribution.

(** What the class uses of [categorical.Categorical]: a distribution over
    [num_classes] classes, given by logits of shape
    [batch_shape_tensor ++ [num_classes]]. *)
Module categorical.

Record Categorical : Type := mkCategorical {
  batch_shape : tf.TensorShape;
  batch_shape_tensor : list nat;
  num_classes : nat;
  num_classes_static : bool;
  logits_at : list nat -> R;
  _graph_parents : loc
}.

Definition logits (c : Categorical) : Node R :=
  Done (mkTensor (batch_shape_tensor c ++ [num_classes c]) (logits_at c)).

(** The tensor [batch_shape_tensor()] returns; the field
    [batch_shape_tensor] is its value when the graph runs. *)
Definition symbolic_batch_shape (c : Categorical) : tf.ShapeTensor :=
  tf.shape_tensor (batch_shape c) (batch_shape_tensor c).

(** [event_size]: the number of classes, a constant of the graph when the
    last dimension of the logits is known statically. *)
Definition event_size (c : Categorical) : tf.IntTensor :=
  tf.mkIntTensor (Z.of_nat (num_classes c)) (num_classes_static c).

Definition label_in_range (c : Categorical) (v : Z) : bool :=
  (0 <=? v) && (v <? Z.of_nat (num_classes c)).

(** [log_prob(k)]: the labels are broadcast against the batch, and each
    is scored by the log-softmax of its row of logits.  A label that is
    not a class is rejected. *)
Definition log_prob (c : Categorical) (k : Node Z) : Node R :=
  obind k (fun tk =>
  obind (tf.log_softmax (logits c)) (fun ls =>
    match broadcast_shapes (shape tk) (batch_shape_tensor c) with
    | None => Fail incompatible_shapes
    | Some s =>
        let label idx := at_index tk (project (shape tk) idx) in
        if forallb (fun idx => label_in_range c (label idx)) (indices s) then
          Done (mkTensor s (fun idx =>
            at_index ls (project (batch_shape_tensor c) idx
                         ++ [Z.to_nat (label idx)])))
        else
          Fail (InvalidArgumentError
                  "Received a label value which is outside the valid range")
    end)).

(** A [Categorical] is a [Distribution]: scalar events, integer samples,
    no mean and no variance; a floating-point argument of [log_prob] is
    cast to a label. *)
Definition as_distribution (c : Categorical) : distribution.Distribution :=
  distribution.mkDistribution
    int32 (Some []) (batch_shape c) (batch_shape_tensor c)
    (Fail (NotImplementedError "mean is not implemented: Categorical"))
    (Fail (NotImplementedError "variance is not implemented: Categorical"))
    (fun x => Done (log_prob c (tf.cast_int32 x)))
    (_graph_parents c).

End categorical.

(** ** Python values passed to the constructor *)

#[warnings="-register-all"]
Inductive PyObj : Type :=
| PyNone
| PyBool (b : bool)
| PyInt (z : Z)
| PyStr (s : string)
| PyList (items : list PyObj)
| PyTuple (items : list PyObj)
| PyCategorical (c : categorical.Categorical)
| PyDistribution (d : distribution.Distribution).

(** Python's truth value of an object, as [not dist] tests it. *)
Definition truthy (o : PyObj) : bool :=
  match o with
  | PyNone => false
  | PyBool b => b
  | PyInt z => negb (z =? 0)
  | PyStr s => negb (String.eqb s "")
  | PyList items | PyTuple items =>
      match items with [] => false | _ => true end
  | PyCategorical _ | PyDistribution _ => true
  end.

(** [isinstance(o, categorical.Categorical)], with the instance. *)
Definition as_Categorical (o : PyObj) : option categorical.Categorical :=
  match o with
  | PyCategorical c => Some c
  | _ => None
  end.

(** [isinstance(o, distribution.Distribution)], with the instance. *)
Definition as_Distribution (o : PyObj) : option distribution.Distribution :=
  match o with
  | PyCategorical c => Some (categorical.as_distribution c)
  | PyDistribution d => Some d
  | _ => None
  end.

(** ** The class [Categorised] *)

Module Categorised.

Import tf.

Inductive ReparameterizationType : Type :=
| FULLY_REPARAMETERIZED
| NOT_REPARAMETERIZED.

(** [parameters = locals()] at the start of [__init__]: the arguments of
    the call. *)
Record Parameters : Type := mkParameters {
  parameters_cat : PyObj;
  parameters_dist : PyObj;
  parameters_validate_args : bool;
  parameters_allow_nan_stats : bool;
  parameters_name : string
}.

(** The keyword arguments of the call of the base-class initialiser that
    ends [__init__].  That initialiser checks that every graph parent is
    a tensor and opens a scope of the given name; the lists of the store
    hold tensors, and the name has opened a scope at line 136 already,
    so the call returns.  What it stores is not part of this class. *)
Record BaseInit : Type := mkBaseInit {
  dtype : DType;
  reparameterization_type : ReparameterizationType;
  validate_args : bool;
  allow_nan_stats : bool;
  parameters : Parameters;
  graph_parents : loc;
  name : string
}.

(** An instance: the attributes [__init__] sets itself, and the
    arguments it hands to the base-class initialiser. *)
Record Categorised : Type := mkCategorised {
  _static_cat_event_size : Z;
  _assertions : list Assertion;
  _cat : categorical.Categorical;
  _dist : distribution.Distribution;
  _event_size : Z;
  _static_event_shape : TensorShape;
  _static_batch_shape : TensorShape;
  base_init : BaseInit
}.

Definition check_message : string :=
  "dist batch shape must match cat batch shape".

(** The assertions of lines 149-161.  Building them can raise, see
    [assert_equal]. *)
Definition build_assertions (validate_args : bool)
    (cat_batch_shape : ShapeTensor) (dist_batch_shape_tensor : ShapeTensor)
  : outcome PyError (list Assertion) :=
  let cat_batch_rank := size cat_batch_shape in
  if validate_args then
    let dist_batch_shape := dist_batch_shape_tensor in
    let dist_batch_rank := size dist_batch_shape in
    obind (assert_equal cat_batch_rank dist_batch_rank check_message)
      (fun rank_assertion =>
    obind (assert_equal (vector cat_batch_shape) (vector dist_batch_shape)
             check_message)
      (fun shape_assertion =>
    Done ([rank_assertion] ++ [shape_assertion])))
  else Done [].

(** The constructor.  Besides its arguments it depends on the name stack
    of the graph at the place of the call, and on the store of list
    objects.  The messages of its exceptions are given without the
    rendering of the offending object. *)
Definition __init__ (cat dist : PyObj)
    (validate_args allow_nan_stats : bool) (name : string)
    (name_stack : string)
    (σ : store) : outcome PyError Categorised * store :=
  let parameters :=
    mkParameters cat dist validate_args allow_nan_stats name in
  match as_Categorical cat with
  | None => (Fail (TypeError "cat must be a Categorical distribution"), σ)
  | Some cat =>
  if negb (truthy dist) then (Fail (ValueError "dist must be non-empty"), σ)
  else
  match as_Distribution dist with
  | None => (Fail (TypeError "dist must be a Distribution instance"), σ)
  | Some dist =>
  let dtype := distribution.dtype dist in
  let static_event_shape := distribution.event_shape dist in
  let static_batch_shape := categorical.batch_shape cat in
  match ndims static_event_shape with
  | None =>
      (Fail (ValueError
         "Expected to know rank(event_shape) from dist, but the distribution does not provide a static number of ndims"),
       σ)
  | Some _ =>
  (* with ops.name_scope(name, values=[cat.logits]): *)
  match name_scope name_stack name with
  | Fail e => (Fail e, σ)
  | Done _ =>
  let num_dist := categorical.event_size cat in
  match constant_value num_dist with
  | None =>
      (Fail (ValueError
         "Could not infer number of classes from cat and unable to compare this value to the number of components passed in."),
       σ)
  | Some static_cat_event_size =>
  let cat_batch_shape := categorical.symbolic_batch_shape cat in
  match build_assertions validate_args cat_batch_shape
          (distribution.symbolic_batch_shape dist) with
  | Fail e => (Fail e, σ)
  | Done assertions =>
  (* graph_parents = self._cat._graph_parents
     graph_parents += self._dist._graph_parents *)
  let graph_parents := categorical._graph_parents cat in
  let σ' := list_iadd σ graph_parents (distribution._graph_parents dist) in
  (Done (mkCategorised
           static_cat_event_size assertions cat dist
           (static_cat_event_size - 1)
           static_event_shape static_batch_shape
           (mkBaseInit dtype NOT_REPARAMETERIZED validate_args
              allow_nan_stats parameters graph_parents name)),
   σ')
  end end end end end end.

(** The properties. *)
Definition cat (self : Categorised) : categorical.Categorical := _cat self.
Definition dist (self : Categorised) : distribution.Distribution := _dist self.
Definition event_size (self : Categorised) : Z := _event_size self.

Definition _batch_shape_tensor (self : Categorised) : list nat :=
  categorical.batch_shape_tensor (_cat self).
Definition _batch_shape (self : Categorised) : TensorShape :=
  _static_batch_shape self.
Definition _event_shape (self : Categorised) : TensorShape :=
  _static_event_shape self.

(** Calls to the base component, logged. *)
Definition dist_mean (self : Categorised) : Py (Node R) :=
  (_ <- tell CallDistMean ;; lift (distribution.mean (_dist self)))%py.
Definition dist_variance (self : Categorised) : Py (Node R) :=
  (_ <- tell CallDistVariance ;; lift (distribution.variance (_dist self)))%py.
Definition dist_log_prob (self : Categorised) (x : Node R) : Py (Node R) :=
  (_ <- tell CallDistLogProb ;; lift (distribution.log_prob (_dist self) x))%py.
Definition cat_log_prob (self : Categorised) (k : Node Z) : Py (Node R) :=
  (_ <- tell CallCatLogProb ;; ret (categorical.log_prob (_cat self) k))%py.

(** A Python integer as an operand of a tensor operator. *)
Definition int (z : Z) : Node R := constant (IZR z).

Definition _cat_probs (self : Categorised) (log_probs : bool) : Py (list (Node R)) :=
  let which_softmax := if log_probs then log_softmax else softmax in
  (_ <- tell CallSoftmax ;;
   let cat_probs := which_softmax (categorical.logits (cat self)) in
   ret (unstack cat_probs (_static_cat_event_size self)))%py.

Definition _mean (self : Categorised) : Py (Node R) :=
  control_dependencies (_assertions self)
    (cat_probs <- _cat_probs self false ;;
     cat_means <- comprehension
       (fun k => p <- getitem cat_probs k ;; ret (mul (int k) p))
       (range (event_size self)) ;;
     cat_mean <- add_n cat_means ;;
     pi_K <- getitem cat_probs (-1) ;;
     dist_mean_ <- dist_mean self ;;
     let dist_mean := mul pi_K (add dist_mean_ (int (event_size self))) in
     ret (add cat_mean dist_mean))%py.

Definition _variance (self : Categorised) : Py (Node R) :=
  control_dependencies (_assertions self)
    (cat_probs <- _cat_probs self false ;;
     cat_2nd_moments <- comprehension
       (fun k => p <- getitem cat_probs k ;; ret (mul (int (k ^ 2)) p))
       (range (event_size self)) ;;
     cat_2nd_moment <- add_n cat_2nd_moments ;;
     pi_K <- getitem cat_probs (-1) ;;
     m1 <- dist_mean self ;;
     v <- dist_variance self ;;
     m2 <- dist_mean self ;;
     let dist_2nd_moment :=
       mul pi_K
         (add (add (add (mul (int (2 * event_size self)) m1) v) (square m2))
              (int (event_size self ^ 2))) in
     mean_ <- _mean self ;;
     ret (sub (add cat_2nd_moment dist_2nd_moment) (square mean_)))%py.

(** The labels [_log_prob] hands to the categorical component. *)
Definition clipped_label (self : Categorised) (x : Node R) : Node Z :=
  cast_int32 (clip_by_value x 0 (event_size self)).

Definition _log_prob (self : Categorised) (x : Node R) : Py (Node R) :=
  control_dependencies (_assertions self)
    (let x := convert_to_tensor x in
     cat_log_prob_ <- cat_log_prob self (clipped_label self x) ;;
     dist_log_prob_ <- dist_log_prob self (sub x (int (event_size self))) ;;
     ret (where_ (less x (int (event_size self)))
            cat_log_prob_
            (add cat_log_prob_ dist_log_prob_)))%py.

Definition _prob (self : Categorised) (x : Node R) : Py (Node R) :=
  (log_prob_ <- _log_prob self x ;; ret (exp log_prob_))%py.

End Categorised.

(** ** Vocabulary of the statements *)

Import tf.
Import Categorised.

(** The assertions [__init__] attaches to an instance. *)
Definition shape_assertions (validate_args : bool)
    (c : categorical.Categorical) (d : distribution.Distribution) : list Assertion :=
  if validate_args then
    [mkAssertion
       (bool_decide (length (categorical.batch_shape_tensor c)
                     = length (distribution.batch_shape_tensor d)))
       check_message;
     mkAssertion
       (bool_decide (categorical.batch_shape_tensor c
                     = distribution.batch_shape_tensor d))
       check_message]
  else [].

(** The batch shapes of the components are seen to differ while the
    graph is built: both ranks are static and differ, or both shapes are
    fully defined and differ. *)
Definition static_mismatch
    (c : categorical.Categorical) (d : distribution.Distribution) : bool :=
  let known s := match ndims s with Some _ => true | None => false end in
  (known (categorical.batch_shape c) && known (distribution.batch_shape d)
   && negb (bool_decide (length (categorical.batch_shape_tensor c)
                         = length (distribution.batch_shape_tensor d))))
  || (is_fully_defined (categorical.batch_shape c)
      && is_fully_defined (distribution.batch_shape d)
      && negb (bool_decide (categorical.batch_shape_tensor c
                            = distribution.batch_shape_tensor d))).




(** The sum of [f 0], ..., [f (n - 1)]. *)
Definition big_sum (f : nat -> R) (n : nat) : R :=
  fold_right Rplus 0%R (map f (seq 0 n)).

(** The probability of class [k] at batch position [b]: the softmax of
    the logits of that position; and its logarithm as the categorical
    component computes it. *)
Definition class_weight (c : categorical.Categorical) (b : list nat) (k : nat) : R :=
  Rtrigo_def.exp (categorical.logits_at c (b ++ [k])).

Definition class_prob (c : categorical.Categorical) (b : list nat) (k : nat) : R :=
  (class_weight c b k / big_sum (class_weight c b) (categorical.num_classes c))%R.

Definition class_log_prob (c : categorical.Categorical) (b : list nat) (k : nat) : R :=
  (categorical.logits_at c (b ++ [k])
   - ln (big_sum (class_weight c b) (categorical.num_classes c)))%R.

(** The label [_log_prob] computes for an entry [v] of its argument. *)
Definition label_of (K : Z) (v : R) : Z :=
  to_int32 (Rmax (Rmin v (IZR K)) (IZR 0)).

(** The exception of [add_n] on an empty list. *)
Definition empty_sum_error : PyError :=
  ValueError
    "inputs must be a list of at least one Tensor/IndexedSlices with the same dtype and shape".

(** ** Example components *)

(** A categorical with [n] equiprobable classes (all logits zero).  Its
    static batch shape has the rank of [batch] and unknown dimensions. *)
Definition uniform_categorical (batch : list nat) (n : nat) (gp : loc)
  : categorical.Categorical :=
  categorical.mkCategorical
    (Some (map (fun _ => None) batch)) batch n true (fun _ => 0%R) gp.

(** The scenario's categorical: three classes, logits [0, 0, log 2], no
    batch dimensions. *)
Definition scenario_logits (idx : list nat) : R :=
  match idx with
  | [2%nat] => ln 2
  | _ => 0%R
  end.

Definition scenario_categorical : categorical.Categorical :=
  categorical.mkCategorical (Some []) [] 3 true scenario_logits 1%positive.

(** An exponential distribution of rate one: mean one, variance one,
    log-density [- x]. *)
Definition exponential (batch : list nat) (gp : loc) : distribution.Distribution :=
  let ones := Done (mkTensor batch (fun _ => 1%R)) in
  distribution.mkDistribution
    float32 (Some []) (Some (map (fun _ => None) batch)) batch
    (Done ones) (Done ones)
    (fun x => Done (binary (fun rate v => - (rate * v))%R ones x))
    gp.

(** The scenario's base component: all mass at one.  Its log-density is
    not a real number away from the atom, so the example offers none. *)
Definition point_mass_at_1 : distribution.Distribution :=
  distribution.mkDistribution
    float32 (Some []) (Some []) []
    (Done (constant 1%R)) (Done (constant 0%R))
    (fun _ => Fail (NotImplementedError "log_prob is not implemented"))
    2%positive.

(** An exponential distribution of rate one that validates its
    argument: evaluating its log-density fails unless every entry of the
    argument is non-negative. *)
Definition negative_sample : RunError :=
  InvalidArgumentError "Condition x >= 0 did not hold element-wise".

Definition validating_exponential (batch : list nat) (gp : loc)
  : distribution.Distribution :=
  let ones := Done (mkTensor batch (fun _ => 1%R)) in
  distribution.mkDistribution
    float32 (Some []) (Some (map (fun _ => None) batch)) batch
    (Done ones) (Done ones)
    (fun x => Done (obind x (fun tx =>
       if forallb (fun idx => if Rle_dec 0 (at_index tx idx) then true else false)
                  (indices (shape tx))
       then binary (fun rate v => - (rate * v))%R ones x
       else Fail negative_sample)))
    gp.



(** An argument without batch dimensions, holding one value. *)
Definition scalar_input (v : R) : Tensor R := mkTensor [] (fun _ => v).

(** The name stack outside every scope. *)
Definition root : string := EmptyString.

(** A store holding the graph-parents lists of two components. *)
Definition two_lists : store :=
  <[1%positive := [10%nat]]> (<[2%positive := [20%nat; 21%nat]]> ∅).

(** * Properties *)

(** ** Shapes and broadcasting *)

Lemma Forall2_lt_rev (idx s : list nat) :
  Forall2 lt idx s -> Forall2 lt (rev idx) (rev s).
Proof.
  induction 1 as [|i d idx s Hid _ IH]; simpl.
  - constructor.
  - apply Forall2_app; [exact IH | repeat constructor; exact Hid].
Qed.

Lemma project_rev_id (rs ridx : list nat) :
  Forall2 lt ridx rs -> project_rev rs ridx = ridx.
Proof.
  induction 1 as [|i d ridx rs Hid _ IH]; simpl; [reflexivity|].
  rewrite IH. destruct (Nat.eqb_spec d 1) as [->|_]; [|reflexivity].
  f_equal. lia.
Qed.

Lemma project_id (s idx : list nat) :
  in_shape idx s -> project s idx = idx.
Proof.
  intros H. unfold project.
  rewrite project_rev_id by (apply Forall2_lt_rev; exact H).
  apply rev_involutive.
Qed.

Lemma broadcast_dim_same (a : nat) : broadcast_dim a a = Some a.
Proof. unfold broadcast_dim. now rewrite Nat.eqb_refl. Qed.

Lemma broadcast_rev_same (r : list nat) : broadcast_rev r r = Some r.
Proof.
  induction r as [|a r IH]; simpl; [reflexivity|].
  now rewrite broadcast_dim_same, IH.
Qed.

Lemma broadcast_shapes_same (s : list nat) : broadcast_shapes s s = Some s.
Proof.
  unfold broadcast_shapes. rewrite broadcast_rev_same. simpl.
  now rewrite rev_involutive.
Qed.

Lemma broadcast_shapes_scalar_r (s : list nat) : broadcast_shapes s [] = Some s.
Proof.
  unfold broadcast_shapes. simpl.
  assert (E : broadcast_rev (rev s) [] = Some (rev s)) by now destruct (rev s).
  rewrite E. simpl. now rewrite rev_involutive.
Qed.

Lemma broadcast_shapes_scalar_l (s : list nat) : broadcast_shapes [] s = Some s.
Proof.
  unfold broadcast_shapes. simpl. now rewrite rev_involutive.
Qed.

Lemma in_indices (s idx : list nat) : In idx (indices s) <-> in_shape idx s.
Proof.
  unfold in_shape. revert idx.
  induction s as [|d s IH]; intros idx; simpl.
  - split.
    + intros [<-|[]]. constructor.
    + intros H. inversion H. now left.
  - rewrite in_flat_map. split.
    + intros (i & Hi & Hin). apply in_map_iff in Hin as (idx' & <- & Hin').
      apply in_seq in Hi. constructor; [lia | now apply IH].
    + intros H. inversion H as [|i d' idx' s' Hlt Hrest]; subst.
      exists i. split; [apply in_seq; lia|].
      apply in_map_iff. exists idx'. split; [reflexivity | now apply IH].
Qed.

(** ** The Python stage *)

Lemma bind_ret_l {A B} (a : A) (f : A -> Py B) : bind (ret a) f = f a.
Proof. unfold bind, ret. now destruct (f a). Qed.

Lemma comprehension_ret {A B} (f : A -> Py B) (g : A -> B) (l : list A) :
  (forall a, In a l -> f a = ret (g a)) ->
  comprehension f l = ret (map g l).
Proof.
  induction l as [|a l IH]; intros H; simpl; [reflexivity|].
  rewrite (H a) by now left.
  rewrite bind_ret_l, IH by (intros; apply H; now right).
  now rewrite bind_ret_l.
Qed.

Lemma getitem_nonneg {A} (l : list A) (i : nat) (a : A) :
  nth_error l i = Some a -> getitem l (Z.of_nat i) = ret a.
Proof.
  intros H. unfold getitem.
  assert (Hlt : (i < length l)%nat) by (apply nth_error_Some; congruence).
  destruct (Z.ltb_spec (Z.of_nat i) 0) as [?|_]; [lia|].
  rewrite Nat2Z.id, H.
  destruct (Z.leb_spec 0 (Z.of_nat i)); [|lia].
  destruct (Z.ltb_spec (Z.of_nat i) (Z.of_nat (length l))); [reflexivity|lia].
Qed.

Lemma getitem_last {A} (l : list A) (a : A) :
  getitem (l ++ [a]) (-1) = ret a.
Proof.
  unfold getitem. rewrite length_app. simpl.
  replace (Z.of_nat (length l + 1) + -1) with (Z.of_nat (length l)) by lia.
  rewrite Nat2Z.id.
  destruct (Z.leb_spec 0 (Z.of_nat (length l))); [|lia].
  destruct (Z.ltb_spec (Z.of_nat (length l)) (Z.of_nat (length l + 1))); [|lia].
  simpl. rewrite nth_error_app2 by lia. now rewrite Nat.sub_diag.
Qed.

Lemma getitem_range {A} (l : list A) (n : Z) (a : Z) (dflt : A) :
  In a (range n) -> n <= Z.of_nat (length l) ->
  getitem l a = ret (nth (Z.to_nat a) l dflt).
Proof.
  unfold range. intros Hin Hn.
  apply in_map_iff in Hin as (i & <- & Hi). apply in_seq in Hi.
  rewrite Nat2Z.id. apply getitem_nonneg.
  apply nth_error_nth'. lia.
Qed.

Lemma bind_tell {B} (c : Call) (k1 k2 : Py B) :
  k1 = k2 -> bind (tell c) (fun _ => k1) = bind (tell c) (fun _ => k2).
Proof. now intros ->. Qed.

Lemma bind_logged {A B} (c : Call) (a : A) (f : A -> Py B) :
  bind ([c], Done a) f = bind (tell c) (fun _ => f a).
Proof. reflexivity. Qed.

Lemma value_bind {A B} (m : Py A) (f : A -> Py B) :
  value (bind m f) =
    match value m with
    | Done a => value (f a)
    | Fail e => Fail e
    end.
Proof.
  unfold value, bind. destruct m as [t [a|e]]; simpl; [|reflexivity].
  now destruct (f a).
Qed.

Lemma value_control_dependencies {A} (l : list Assertion) (block : Py (Node A)) :
  value (control_dependencies l block) =
    match value block with
    | Done n => Done (obind (run_assertions l) (fun _ => n))
    | Fail e => Fail e
    end.
Proof.
  unfold control_dependencies. rewrite value_bind.
  now destruct (value block).
Qed.

Lemma calls_control_dependencies {A} (l : list Assertion) (block : Py (Node A)) :
  calls (control_dependencies l block) = calls block.
Proof.
  unfold control_dependencies, calls, bind.
  destruct block as [t [n|e]]; simpl; [|reflexivity]. apply app_nil_r.
Qed.

(** ** The constructor *)

(** Building the assertions raises exactly when validation is asked for
    and the batch shapes are seen to differ while the graph is built. *)
Lemma build_assertions_cases va c d :
  build_assertions va (categorical.symbolic_batch_shape c)
                      (distribution.symbolic_batch_shape d)
  = if va && static_mismatch c d then Fail (InvalidArgument check_message)
    else Done (shape_assertions va c d).
Proof.
  unfold build_assertions, static_mismatch, shape_assertions, assert_equal,
    categorical.symbolic_batch_shape, distribution.symbolic_batch_shape,
    shape_tensor, size, constant_value.
  cbn [vector run_value is_constant length_static].
  destruct va; [|reflexivity]. cbn [andb].
  destruct (ndims (categorical.batch_shape c)),
           (ndims (distribution.batch_shape d)),
           (is_fully_defined (categorical.batch_shape c)),
           (is_fully_defined (distribution.batch_shape d)),
           (bool_decide (length (categorical.batch_shape_tensor c)
                         = length (distribution.batch_shape_tensor d))),
           (bool_decide (categorical.batch_shape_tensor c
                         = distribution.batch_shape_tensor d));
    reflexivity.
Qed.

(** What a successful construction tells about its arguments and about the
    instance. *)
Lemma init_done cat dist va an nm ns σ self σ' :
  __init__ cat dist va an nm ns σ = (Done self, σ') ->
  exists c d,
    as_Categorical cat = Some c /\
    truthy dist = true /\
    as_Distribution dist = Some d /\
    ndims (distribution.event_shape d) <> None /\
    categorical.num_classes_static c = true /\
    _cat self = c /\ _dist self = d /\
    _static_cat_event_size self = Z.of_nat (categorical.num_classes c) /\
    _event_size self = Z.of_nat (categorical.num_classes c) - 1 /\
    _assertions self = shape_assertions va c d /\
    validate_args (base_init self) = va /\
    graph_parents (base_init self) = categorical._graph_parents c /\
    valid_scope_name ns nm = true /\
    (va = true -> static_mismatch c d = false) /\
    σ' = list_iadd σ (categorical._graph_parents c)
                     (distribution._graph_parents d).
Proof.
  unfold __init__, name_scope. intros H.
  destruct (as_Categorical cat) as [c|] eqn:Ec; [|discriminate].
  destruct (truthy dist) eqn:Et; cbn [negb] in H; [|discriminate].
  destruct (as_Distribution dist) as [d|] eqn:Ed; [|discriminate].
  destruct (ndims (distribution.event_shape d)) as [r|] eqn:En; [|discriminate].
  destruct (valid_scope_name ns nm) eqn:Ev; [|discriminate].
  unfold constant_value in H. cbn [categorical.event_size mkIntTensor
    is_constant run_value] in H.
  destruct (categorical.num_classes_static c) eqn:Es; [|discriminate].
  rewrite build_assertions_cases in H.
  destruct (va && static_mismatch c d) eqn:Em; [discriminate|].
  injection H as <- <-.
  exists c, d. cbn.
  repeat split; try reflexivity; try congruence.
  intros ->. exact Em.
Qed.

(** A construction that passes all its checks. *)
Lemma init_succeeds c dist d va an nm ns σ :
  truthy dist = true ->
  as_Distribution dist = Some d ->
  ndims (distribution.event_shape d) <> None ->
  categorical.num_classes_static c = true ->
  valid_scope_name ns nm = true ->
  (va = true -> static_mismatch c d = false) ->
  exists self,
    __init__ (PyCategorical c) dist va an nm ns σ
    = (Done self,
       list_iadd σ (categorical._graph_parents c)
                   (distribution._graph_parents d)).
Proof.
  intros Ht Hd Hn Hs Hv Hm. unfold __init__, name_scope. cbn [as_Categorical].
  rewrite Ht, Hd, Hv. cbn [negb].
  destruct (ndims (distribution.event_shape d)) as [r|]; [|congruence].
  unfold constant_value. cbn [categorical.event_size mkIntTensor
    is_constant run_value]. rewrite Hs, build_assertions_cases.
  assert (Em : va && static_mismatch c d = false)
    by (destruct va; [now apply Hm | reflexivity]).
  rewrite Em. eexists. reflexivity.
Qed.





(** C7.  After a successful construction from a categorical with [N]
    classes, [event_size] is [N - 1].  The instance is a value that no
    method takes apart or returns changed, so the property keeps reading
    the number stored by the constructor. *)
Theorem event_size_after_init c dist va an nm ns σ self σ' :
  __init__ (PyCategorical c) dist va an nm ns σ = (Done self, σ') ->
  event_size self = Z.of_nat (categorical.num_classes c) - 1 /\
  _static_cat_event_size self = Z.of_nat (categorical.num_classes c).
Proof.
  intros H. apply init_done in H as (c' & d & Hc & _ & _ & _ & _ & _ & _ & Hn & He & _).
  injection Hc as <-. unfold event_size. now rewrite He, Hn.
Qed.

Lemma event_size_after_init_witness :
  exists self σ',
    __init__ (PyCategorical scenario_categorical) (PyDistribution point_mass_at_1)
             false true "Categorised" root two_lists = (Done self, σ') /\
    event_size self = 2.
Proof.
  eexists. eexists. split; [reflexivity|].
  apply (event_size_after_init scenario_categorical
           (PyDistribution point_mass_at_1) false true "Categorised" root
           two_lists _ _ eq_refl).
Defined.

(** ** The graph-parents lists *)

(** C10.  A successful construction extends, in place, the graph-parents
    list of its categorical argument by the entries of the base
    component's list; the new instance shares that list.  No other list
    of the store changes, and the categorical's list is observably longer
    whenever the base component has graph parents. *)
Theorem init_extends_graph_parents_of_cat c dist d va an nm ns σ self σ' :
  __init__ (PyCategorical c) dist va an nm ns σ = (Done self, σ') ->
  as_Distribution dist = Some d ->
  let lc := categorical._graph_parents c in
  let ld := distribution._graph_parents d in
  list_at σ' lc = list_at σ lc ++ list_at σ ld /\
  graph_parents (base_init self) = lc /\
  (forall l, l <> lc -> σ' !! l = σ !! l) /\
  (list_at σ ld <> [] -> list_at σ' lc <> list_at σ lc).
Proof.
  intros H Hd.
  apply init_done in H
    as (c' & d' & Hc & _ & Hd' & _ & _ & _ & _ & _ & _ & _ & _ & Hg & _ & _ & ->).
  injection Hc as <-. rewrite Hd in Hd'. injection Hd' as <-.
  cbv zeta.
  assert (E : list_at (list_iadd σ (categorical._graph_parents c)
                         (distribution._graph_parents d))
                      (categorical._graph_parents c)
              = list_at σ (categorical._graph_parents c)
                ++ list_at σ (distribution._graph_parents d)).
  { unfold list_iadd. unfold list_at at 1. now rewrite lookup_insert_eq. }
  split; [exact E|]. split; [exact Hg|]. split.
  - intros l Hl. unfold list_iadd. now rewrite lookup_insert_ne.
  - intros Hne Heq. rewrite E in Heq.
    apply (f_equal (@length nat)) in Heq. rewrite length_app in Heq.
    destruct (list_at σ (distribution._graph_parents d)); [congruence|].
    simpl in Heq. lia.
Qed.

Lemma init_extends_graph_parents_of_cat_witness :
  exists self σ',
    __init__ (PyCategorical scenario_categorical) (PyDistribution point_mass_at_1)
             false true "Categorised" root two_lists = (Done self, σ') /\
    list_at two_lists 1%positive = [10%nat] /\
    list_at σ' 1%positive = [10%nat; 20%nat; 21%nat].
Proof.
  eexists. eexists. split; [reflexivity|]. split; [reflexivity|].
  exact (proj1 (init_extends_graph_parents_of_cat scenario_categorical
           (PyDistribution point_mass_at_1) point_mass_at_1
           false true "Categorised" root two_lists _ _ eq_refl eq_refl)).
Defined.

(** ** Densities *)

(** C6.  [prob(x)] is the exponential of [log_prob(x)], entry by entry:
    it makes the same calls, fails exactly when [log_prob(x)] fails and
    with the same error, and otherwise has the shape of [log_prob(x)] and
    the exponentials of its entries. *)
Theorem prob_is_exp_of_log_prob self x :
  calls (_prob self x) = calls (_log_prob self x) /\
  value (_prob self x) =
    match value (_log_prob self x) with
    | Fail e => Fail e
    | Done (Fail e) => Done (Fail e)
    | Done (Done t) =>
        Done (Done (mkTensor (shape t)
                      (fun idx => Rtrigo_def.exp (at_index t idx))))
    end.
Proof.
  unfold _prob, calls, value.
  destruct (_log_prob self x) as [t [[lp|e]|e]]; simpl;
    rewrite ?app_nil_r; split; reflexivity.
Qed.

Lemma clip_bounds (v : R) (K : Z) :
  0 <= K -> (0 <= Rmax (Rmin v (IZR K)) (IZR 0) <= IZR K)%R.
Proof.
  intros HK. apply IZR_le in HK. split.
  - apply Rmax_r.
  - apply Rmax_lub; [apply Rmin_r | exact HK].
Qed.

Lemma to_int32_clipped (r : R) (K : Z) :
  K <= int32_max -> (0 <= r <= IZR K)%R ->
  to_int32 r = Zfloor r /\ 0 <= Zfloor r <= K.
Proof.
  intros HK [H0 H1].
  assert (Hlo : 0 <= Zfloor r) by (apply Zfloor_lub; exact H0).
  assert (Hhi : Zfloor r <= K).
  { rewrite <- (ZfloorZ K). apply Zfloor_le. exact H1. }
  split; [|lia].
  unfold to_int32, truncate. destruct (Rle_dec 0 r) as [_|Hn]; [|contradiction].
  unfold int32_min, int32_max in *.
  destruct (Z.leb_spec (-2147483648) (Zfloor r)); [|lia].
  destruct (Z.leb_spec (Zfloor r) 2147483647); [reflexivity|lia].
Qed.

Lemma label_of_range (K : Z) (v : R) :
  0 <= K <= int32_max -> 0 <= label_of K v <= K.
Proof.
  intros [H0 H1]. unfold label_of.
  destruct (to_int32_clipped _ K H1 (clip_bounds v K H0)) as [-> H]. exact H.
Qed.

Lemma label_of_overflow (K : Z) (v : R) :
  0 <= K <= int32_max -> (IZR K <= v)%R -> label_of K v = K.
Proof.
  intros [H0 H1] Hv. unfold label_of.
  rewrite Rmin_right by exact Hv.
  rewrite Rmax_left by (apply IZR_le; exact H0).
  destruct (to_int32_clipped (IZR K) K H1) as [-> _].
  - split; [apply IZR_le; exact H0 | apply Rle_refl].
  - apply ZfloorZ.
Qed.

(** What [clipped_label] evaluates to. *)
Lemma clipped_label_done self (tx : Tensor R) :
  clipped_label self (Done tx)
  = Done (mkTensor (shape tx)
            (fun idx => label_of (event_size self)
                          (at_index tx (project (shape tx) (project (shape tx) idx))))).
Proof.
  unfold clipped_label, clip_by_value, cast_int32, unary, binary, constant, omap.
  simpl. rewrite broadcast_shapes_scalar_r. simpl.
  rewrite broadcast_shapes_scalar_r. reflexivity.
Qed.



(** ** The categorical component *)

Lemma sum_exp_logits c (b : list nat) (k : nat) :
  sum_exp (mkTensor (categorical.batch_shape_tensor c ++ [categorical.num_classes c])
                    (categorical.logits_at c)) (b ++ [k])
  = big_sum (class_weight c b) (categorical.num_classes c).
Proof.
  unfold sum_exp, big_sum, class_weight. cbn [shape at_index].
  now rewrite last_last, removelast_last.
Qed.

Lemma log_softmax_logits c :
  exists ls,
    log_softmax (categorical.logits c) = Done ls /\
    shape ls = categorical.batch_shape_tensor c ++ [categorical.num_classes c] /\
    forall b k, at_index ls (b ++ [k]) = class_log_prob c b k.
Proof.
  unfold log_softmax, categorical.logits, obind. cbn [shape at_index].
  destruct (categorical.batch_shape_tensor c ++ [categorical.num_classes c])
    as [|n l] eqn:E.
  - destruct (categorical.batch_shape_tensor c); discriminate.
  - eexists. split; [reflexivity|]. split; [reflexivity|].
    intros b k. cbn [at_index]. rewrite <- E, sum_exp_logits. reflexivity.
Qed.

Lemma softmax_logits c :
  exists sm,
    softmax (categorical.logits c) = Done sm /\
    shape sm = categorical.batch_shape_tensor c ++ [categorical.num_classes c] /\
    forall b k, at_index sm (b ++ [k]) = class_prob c b k.
Proof.
  unfold softmax, categorical.logits, obind. cbn [shape at_index].
  destruct (categorical.batch_shape_tensor c ++ [categorical.num_classes c])
    as [|n l] eqn:E.
  - destruct (categorical.batch_shape_tensor c); discriminate.
  - eexists. split; [reflexivity|]. split; [reflexivity|].
    intros b k. cbn [at_index]. rewrite <- E, sum_exp_logits. reflexivity.
Qed.

Lemma big_sum_pos (f : nat -> R) (n : nat) :
  (forall k, 0 < f k)%R -> (1 <= n)%nat -> (0 < big_sum f n)%R.
Proof.
  intros Hf Hn. unfold big_sum.
  assert (H : forall l : list nat, l <> [] -> (0 < fold_right Rplus 0 (map f l))%R).
  { induction l as [|a [|a' l] IH]; intros Hl; [congruence| |].
    - simpl. specialize (Hf a). lra.
    - cbn [map fold_right] in *. specialize (Hf a).
      specialize (IH ltac:(discriminate)). lra. }
  apply H. destruct n; [lia | discriminate].
Qed.

(** The logarithm of a class probability is the log-probability the
    categorical component reports. *)
Lemma ln_class_prob c (b : list nat) (k : nat) :
  (1 <= categorical.num_classes c)%nat ->
  ln (class_prob c b k) = class_log_prob c b k.
Proof.
  intros HN. unfold class_prob, class_log_prob.
  assert (Hs : (0 < big_sum (class_weight c b) (categorical.num_classes c))%R).
  { apply big_sum_pos; [|exact HN]. intros j. apply exp_pos. }
  unfold Rdiv. rewrite ln_mult; [|apply exp_pos | apply Rinv_0_lt_compat; exact Hs].
  rewrite ln_Rinv by exact Hs. unfold class_weight at 1. rewrite ln_exp. lra.
Qed.

Lemma categorical_log_prob_done c (tk : Tensor Z) (s : list nat) :
  broadcast_shapes (shape tk) (categorical.batch_shape_tensor c) = Some s ->
  (forall idx, categorical.label_in_range c (at_index tk idx) = true) ->
  exists t,
    categorical.log_prob c (Done tk) = Done t /\
    shape t = s /\
    forall idx,
      at_index t idx
      = class_log_prob c (project (categorical.batch_shape_tensor c) idx)
          (Z.to_nat (at_index tk (project (shape tk) idx))).
Proof.
  intros Hs Hr.
  destruct (log_softmax_logits c) as (ls & Els & _ & Hls).
  unfold categorical.log_prob. cbn [obind]. rewrite Els. cbn [obind].
  rewrite Hs.
  rewrite (proj2 (forallb_forall _ _)) by (intros idx _; apply Hr).
  eexists. split; [reflexivity|]. split; [reflexivity|].
  intros idx. cbn [at_index]. apply Hls.
Qed.

(** C1.  For an argument whose shape the batch broadcasts to, and a base
    component whose [log_prob] returns a tensor of that shape,
    [log_prob(x)] returns a tensor of the shape of [x].  Each entry [v] of
    [x] is clamped to [0 .. event_size] and cut to an integer label; the
    result is the categorical log-probability of that label when
    [v < event_size], and the log-probability of class [event_size] plus
    the base component's log-density, taken at [v - event_size], when
    [v >= event_size].  At [v = event_size] the base component is asked
    at [0]. *)
Theorem log_prob_cases c dist d va an nm ns σ self σ' (tx tb : Tensor R) :
  __init__ (PyCategorical c) dist va an nm ns σ = (Done self, σ') ->
  as_Distribution dist = Some d ->
  (1 <= categorical.num_classes c)%nat ->
  Z.of_nat (categorical.num_classes c) - 1 <= int32_max ->
  run_assertions (_assertions self) = Done tt ->
  broadcast_shapes (shape tx) (categorical.batch_shape_tensor c) = Some (shape tx) ->
  distribution.log_prob d (sub (Done tx) (int (event_size self))) = Done (Done tb) ->
  shape tb = shape tx ->
  exists t ta,
    sub (Done tx) (int (event_size self)) = Done ta /\
    shape ta = shape tx /\
    value (_log_prob self (Done tx)) = Done (Done t) /\
    shape t = shape tx /\
    forall idx, in_shape idx (shape tx) ->
      let K := event_size self in
      let v := at_index tx idx in
      let b := project (categorical.batch_shape_tensor c) idx in
      at_index ta idx = (v - IZR K)%R /\
      0 <= label_of K v <= K /\
      ((v < IZR K)%R ->
         at_index t idx = class_log_prob c b (Z.to_nat (label_of K v))) /\
      ((IZR K <= v)%R ->
         label_of K v = K /\
         at_index t idx
         = (ln (class_prob c b (Z.to_nat K)) + at_index tb idx)%R) /\
      (v = IZR K -> at_index ta idx = 0%R).
Proof.
  intros H Hd HN Hmax Ha Hs Hb Hsb.
  apply init_done in H
    as (c' & d' & Hc & _ & Hd' & _ & _ & Hcat & Hdist & _ & He & _).
  injection Hc as <-. rewrite Hd in Hd'. injection Hd' as <-.
  assert (HK : 0 <= event_size self <= int32_max)
    by (unfold event_size; rewrite He; lia).
  (* the labels and their score *)
  destruct (categorical_log_prob_done c
              (mkTensor (shape tx)
                 (fun idx => label_of (event_size self)
                    (at_index tx (project (shape tx) (project (shape tx) idx)))))
              (shape tx) Hs) as (t1 & Et1 & Hst1 & Hat1).
  { intros idx. cbn [at_index]. unfold categorical.label_in_range.
    pose proof (label_of_range (event_size self)
      (at_index tx (project (shape tx) (project (shape tx) idx))) HK) as Hr.
    unfold event_size in Hr |- *. rewrite He in Hr |- *.
    apply andb_true_intro. split; [apply Z.leb_le | apply Z.ltb_lt]; lia. }
  (* the argument of the base component *)
  assert (Eta : sub (Done tx) (int (event_size self))
                = Done (mkTensor (shape tx)
                          (fun idx => at_index tx (project (shape tx) idx)
                                      - IZR (event_size self))%R)).
  { unfold sub, binary, int, constant. cbn [obind shape].
    rewrite broadcast_shapes_scalar_r. reflexivity. }
  eexists. eexists. split; [exact Eta|]. split; [reflexivity|].
  rewrite Eta in Hb.
  unfold _log_prob. rewrite value_control_dependencies.
  unfold convert_to_tensor, cat_log_prob, dist_log_prob.
  rewrite clipped_label_done, Hcat, Et1, Hdist, Eta, Hb.
  cbn [value bind tell lift ret snd]. rewrite Ha. cbn [obind].
  unfold where_, less, add, binary, int, constant. cbn [obind shape].
  rewrite broadcast_shapes_scalar_r, Hst1, Hsb, broadcast_shapes_same.
  cbn [obind shape].
  rewrite !decide_True by reflexivity.
  split; [reflexivity|]. split; [reflexivity|].
  intros idx Hidx. cbv zeta. cbn [at_index].
  rewrite !(project_id _ _ Hidx), !Hat1. cbn [at_index shape].
  rewrite !(project_id _ _ Hidx).
  split; [reflexivity|].
  split; [apply label_of_range; exact HK|].
  split; [|split].
  - intros Hv. unfold Rlt_bool.
    destruct (Rlt_dec (at_index tx idx) (IZR (event_size self))); [reflexivity|contradiction].
  - intros Hv. unfold Rlt_bool.
    destruct (Rlt_dec (at_index tx idx) (IZR (event_size self))) as [Hlt|_]; [lra|].
    rewrite (label_of_overflow _ _ HK Hv).
    split; [reflexivity|]. now rewrite ln_class_prob.
  - intros ->. lra.
Qed.

Lemma log_prob_cases_witness :
  exists self σ' t,
    __init__ (PyCategorical scenario_categorical)
             (PyDistribution (exponential [] 2%positive))
             false true "Categorised" root two_lists = (Done self, σ') /\
    value (_log_prob self (Done (scalar_input 5))) = Done (Done t) /\
    shape t = [].
Proof.
  destruct (log_prob_cases scenario_categorical
              (PyDistribution (exponential [] 2%positive))
              (exponential [] 2%positive)
              false true "Categorised" root two_lists _ _ (scalar_input 5) _
              eq_refl eq_refl
              ltac:(simpl; lia) ltac:(vm_compute; discriminate)
              eq_refl eq_refl eq_refl eq_refl)
    as (t & ta & _ & _ & Hv & Hs & _).
  eexists _, _, t. split; [reflexivity|]. split; [exact Hv | exact Hs].
Defined.

(** ** The categorical part of the moments *)

(** The sum [add_n] builds, when its inputs have one shape. *)
Lemma fold_add_same_shape (ts : list (Tensor R)) (t0 : Tensor R) :
  Forall (fun t => shape t = shape t0) ts ->
  exists t,
    fold_left add_same_shape (map Done ts) (Done t0) = Done t /\
    shape t = shape t0 /\
    forall idx,
      at_index t idx
      = (at_index t0 idx + fold_right Rplus 0 (map (fun t => at_index t idx) ts))%R.
Proof.
  revert t0. induction ts as [|t1 ts IH]; intros t0 Hall.
  - exists t0. cbn. repeat split; try reflexivity. intros idx. lra.
  - inversion Hall as [|? ? Hs1 Hrest]; subst.
    cbn [map fold_left]. unfold add_same_shape at 2. cbn [obind].
    rewrite decide_True by (symmetry; exact Hs1).
    destruct (IH (mkTensor (shape t0)
                    (fun idx => at_index t0 idx + at_index t1 idx)%R))
      as (t & Et & Hst & Hat).
    { cbn [shape]. exact Hrest. }
    exists t. split; [exact Et|]. split; [exact Hst|].
    intros idx. rewrite Hat. cbn [at_index map fold_right]. lra.
Qed.

Lemma add_n_done (ts : list (Tensor R)) (s : list nat) :
  ts <> [] -> Forall (fun t => shape t = s) ts ->
  exists t,
    add_n (map Done ts) = ret (Done t) /\
    shape t = s /\
    forall idx,
      at_index t idx = fold_right Rplus 0%R (map (fun t => at_index t idx) ts).
Proof.
  destruct ts as [|t0 ts]; [congruence|]. intros _ Hall.
  inversion Hall as [|? ? Hs0 Hrest]; subst.
  destruct (fold_add_same_shape ts t0 Hrest) as (t & Et & Hst & Hat).
  exists t. cbn [map add_n]. rewrite Et.
  split; [reflexivity|]. split; [exact Hst|]. intros idx. rewrite Hat. reflexivity.
Qed.

(** The list [_cat_probs] returns: one tensor per class, each of the
    batch shape, holding the class probabilities. *)
Lemma cat_probs_done self :
  _static_cat_event_size self = Z.of_nat (categorical.num_classes (_cat self)) ->
  exists ps : list (Tensor R),
    _cat_probs self false = ([CallSoftmax], Done (map Done ps)) /\
    length ps = categorical.num_classes (_cat self) /\
    forall k, (k < categorical.num_classes (_cat self))%nat ->
      exists p, nth_error ps k = Some p /\
        shape p = categorical.batch_shape_tensor (_cat self) /\
        forall idx, at_index p idx = class_prob (_cat self) idx k.
Proof.
  intros Hn. set (c := _cat self) in *.
  destruct (softmax_logits c) as (sm & Esm & Hsm & Hatsm).
  exists (map (fun k => mkTensor (categorical.batch_shape_tensor c)
                          (fun idx => at_index sm (idx ++ [k])))
              (seq 0 (categorical.num_classes c))).
  split; [|split].
  - unfold _cat_probs, cat. fold c. rewrite Hn.
    cbn [bind tell ret app]. f_equal. f_equal.
    unfold unstack. rewrite Nat2Z.id, map_map.
    apply map_ext. intros k. unfold slice_last. rewrite Esm. cbn [obind].
    rewrite Hsm, last_last, removelast_last, Z.eqb_refl.
    destruct (categorical.batch_shape_tensor c ++ [categorical.num_classes c])
      eqn:E; [|reflexivity].
    destruct (categorical.batch_shape_tensor c); discriminate.
  - now rewrite length_map, length_seq.
  - intros k Hk. eexists. split.
    + rewrite nth_error_map, nth_error_seq.
      destruct (Nat.ltb_spec k (categorical.num_classes c)); [|lia].
      reflexivity.
    + split; [reflexivity|]. intros idx. cbn [at_index]. apply Hatsm.
Qed.

(** ** The moments of an instance with at least two classes *)

Section TwoClasses.

Variable self : Categorised.

Hypothesis Hn :
  _static_cat_event_size self = Z.of_nat (categorical.num_classes (_cat self)).
Hypothesis He :
  _event_size self = Z.of_nat (categorical.num_classes (_cat self)) - 1.
Hypothesis HN : (2 <= categorical.num_classes (_cat self))%nat.

(** The first four steps of [_mean] and [_variance]: the class
    probabilities, the weighted contributions of the classes below
    [event_size] (weight [w k] for class [k]), their sum, and the
    probability of the last class. *)
Lemma categorical_part (w : Z -> Z) :
  exists tcm tpk : Tensor R,
    shape tcm = categorical.batch_shape_tensor (_cat self) /\
    shape tpk = categorical.batch_shape_tensor (_cat self) /\
    (forall idx, in_shape idx (categorical.batch_shape_tensor (_cat self)) ->
       at_index tcm idx
       = big_sum (fun k => IZR (w (Z.of_nat k)) * class_prob (_cat self) idx k)%R
                 (Z.to_nat (event_size self))) /\
    (forall idx,
       at_index tpk idx
       = class_prob (_cat self) idx (Z.to_nat (event_size self))) /\
    forall B (cont : Node R -> Node R -> Py B),
      (cat_probs <- _cat_probs self false ;;
       terms <- comprehension
         (fun k => p <- getitem cat_probs k ;; ret (mul (int (w k)) p))
         (range (event_size self)) ;;
       total <- add_n terms ;;
       pi_K <- getitem cat_probs (-1) ;;
       cont total pi_K)%py
      = (_ <- tell CallSoftmax ;; cont (Done tcm) (Done tpk))%py.
Proof.
  set (c := _cat self) in *.
  set (N := categorical.num_classes c) in *.
  set (batch := categorical.batch_shape_tensor c) in *.
  destruct (cat_probs_done self Hn) as (ps & Ecp & Hlen & Hps).
  fold c N batch in Hlen, Hps.
  assert (EK : Z.to_nat (event_size self) = (N - 1)%nat)
    by (unfold event_size; rewrite He; lia).
  assert (EKz : event_size self = Z.of_nat (N - 1))
    by (unfold event_size; rewrite He; lia).
  set (dflt := mkTensor (A:=R) [] (fun _ => 0%R)).
  set (term := fun i : nat =>
         mkTensor (shape (nth i ps dflt))
           (fun idx => IZR (w (Z.of_nat i))
                       * at_index (nth i ps dflt)
                           (project (shape (nth i ps dflt)) idx))%R).
  assert (Hnth : forall i, (i < N)%nat ->
            shape (nth i ps dflt) = batch /\
            forall idx, at_index (nth i ps dflt) idx = class_prob c idx i).
  { intros i Hi. destruct (Hps i Hi) as (p & Ep & Hp).
    rewrite (nth_error_nth _ _ _ Ep). exact Hp. }
  (* the contributions *)
  assert (Eterms :
    comprehension
      (fun k => p <- getitem (map Done ps) k ;; ret (mul (int (w k)) p))%py
      (range (event_size self))
    = ret (map Done (map term (seq 0 (N - 1))))).
  { rewrite (comprehension_ret _
      (fun k => mul (int (w k)) (nth (Z.to_nat k) (map Done ps) (Done dflt)))).
    - f_equal. rewrite EKz. unfold range. rewrite Nat2Z.id, !map_map.
      apply map_ext. intros i. rewrite Nat2Z.id.
      rewrite (map_nth (@Done RunError (Tensor R))).
      unfold mul, binary, int, constant. cbn [obind shape].
      rewrite broadcast_shapes_scalar_l. reflexivity.
    - intros a Ha.
      rewrite (getitem_range _ _ _ (Done dflt) Ha)
        by (rewrite length_map, Hlen, EKz; lia).
      now rewrite bind_ret_l. }
  (* their sum *)
  destruct (add_n_done (map term (seq 0 (N - 1))) batch) as (tcm & Etcm & Hstcm & Hattcm).
  { destruct (N - 1)%nat eqn:E; [lia | discriminate]. }
  { apply List.Forall_forall. intros t Ht.
    apply in_map_iff in Ht as (i & <- & Hi). apply in_seq in Hi.
    cbn [shape]. apply Hnth. lia. }
  (* the last class *)
  assert (Elast : getitem (map (@Done RunError (Tensor R)) ps) (-1)
                  = ret (Done (nth (N - 1) ps dflt))).
  { assert (Hne : ps <> []) by (destruct ps; [simpl in Hlen; lia | discriminate]).
    pose proof (app_removelast_last dflt Hne) as Eps.
    assert (Hl : length (removelast ps) = (N - 1)%nat).
    { apply (f_equal (@length _)) in Eps. rewrite length_app in Eps.
      simpl in Eps. lia. }
    assert (En : nth (N - 1) ps dflt = List.last ps dflt).
    { rewrite Eps at 1. rewrite app_nth2 by lia.
      now rewrite Hl, Nat.sub_diag. }
    rewrite En, Eps at 1. rewrite map_app. cbn [map]. apply getitem_last. }
  exists tcm, (nth (N - 1) ps dflt).
  split; [exact Hstcm|]. split; [apply Hnth; lia|]. split; [|split].
  - intros idx Hidx. rewrite Hattcm, EK. unfold big_sum. rewrite map_map.
    f_equal. apply map_ext_in. intros i Hi. apply in_seq in Hi.
    unfold term. cbn [at_index].
    destruct (Hnth i ltac:(lia)) as [Hs Hat].
    now rewrite Hs, (project_id _ _ Hidx), Hat.
  - intros idx. rewrite EK. apply Hnth. lia.
  - intros B cont. rewrite Ecp, bind_logged. apply bind_tell.
    now rewrite Eterms, bind_ret_l, Etcm, bind_ret_l, Elast, bind_ret_l.
Qed.

(** With at least two classes, [_mean] comes down to one call of the base
    component's [mean]. *)
Lemma mean_unfolded :
  exists tcm tpk : Tensor R,
    shape tcm = categorical.batch_shape_tensor (_cat self) /\
    shape tpk = categorical.batch_shape_tensor (_cat self) /\
    (forall idx, in_shape idx (categorical.batch_shape_tensor (_cat self)) ->
       at_index tcm idx
       = big_sum (fun k => IZR (Z.of_nat k) * class_prob (_cat self) idx k)%R
                 (Z.to_nat (event_size self))) /\
    (forall idx,
       at_index tpk idx
       = class_prob (_cat self) idx (Z.to_nat (event_size self))) /\
    _mean self
    = ([CallSoftmax; CallDistMean],
       match distribution.mean (_dist self) with
       | Done m =>
           Done (obind (run_assertions (_assertions self))
                   (fun _ => add (Done tcm)
                               (mul (Done tpk) (add m (int (event_size self))))))
       | Fail e => Fail e
       end).
Proof.
  destruct (categorical_part (fun k => k))
    as (tcm & tpk & Hs1 & Hs2 & Hat1 & Hat2 & Hk).
  exists tcm, tpk. repeat (split; [assumption|]).
  unfold _mean. rewrite Hk.
  unfold control_dependencies, dist_mean, bind, tell, lift, ret.
  now destruct (distribution.mean (_dist self)).
Qed.

(** With at least two classes, [_variance] comes down to the calls of the
    base component and to a call of [_mean]. *)
Lemma variance_unfolded :
  exists tc2 tpk : Tensor R,
    shape tc2 = categorical.batch_shape_tensor (_cat self) /\
    shape tpk = categorical.batch_shape_tensor (_cat self) /\
    (forall idx, in_shape idx (categorical.batch_shape_tensor (_cat self)) ->
       at_index tc2 idx
       = big_sum (fun k => IZR (Z.of_nat k ^ 2) * class_prob (_cat self) idx k)%R
                 (Z.to_nat (event_size self))) /\
    (forall idx,
       at_index tpk idx
       = class_prob (_cat self) idx (Z.to_nat (event_size self))) /\
    _variance self
    = control_dependencies (_assertions self)
        (_ <- tell CallSoftmax ;;
         m1 <- dist_mean self ;;
         v <- dist_variance self ;;
         m2 <- dist_mean self ;;
         mean_ <- _mean self ;;
         ret (sub
                (add (Done tc2)
                   (mul (Done tpk)
                      (add (add (add (mul (int (2 * event_size self)) m1) v)
                              (square m2))
                           (int (event_size self ^ 2)))))
                (square mean_)))%py.
Proof.
  destruct (categorical_part (fun k => k ^ 2))
    as (tc2 & tpk & Hs1 & Hs2 & Hat1 & Hat2 & Hk).
  exists tc2, tpk. repeat (split; [assumption|]).
  unfold _variance. now rewrite Hk.
Qed.

(** With at least two classes, the moments return a symbolic tensor as
    soon as the base component returns its own. *)
Lemma moments_return (m v : Node R) :
  distribution.mean (_dist self) = Done m ->
  distribution.variance (_dist self) = Done v ->
  (exists n, value (_mean self) = Done n) /\
  (exists n, value (_variance self) = Done n).
Proof.
  intros Hm Hv.
  destruct mean_unfolded as (tcm & tpk & _ & _ & _ & _ & Em).
  destruct variance_unfolded as (tc2 & tpk' & _ & _ & _ & _ & Ev).
  rewrite Hm in Em. split.
  - rewrite Em. eexists. reflexivity.
  - rewrite Ev. unfold control_dependencies, dist_mean, dist_variance.
    rewrite Hm, Hv, Em. eexists. reflexivity.
Qed.

End TwoClasses.

(** ** The mean *)

(** The mean, entry by entry, for at least two classes. *)
Lemma mean_formula c dist d va an nm ns σ self σ' (tm : Tensor R) :
  __init__ (PyCategorical c) dist va an nm ns σ = (Done self, σ') ->
  as_Distribution dist = Some d ->
  (2 <= categorical.num_classes c)%nat ->
  run_assertions (_assertions self) = Done tt ->
  distribution.mean d = Done (Done tm) ->
  shape tm = categorical.batch_shape_tensor c ->
  exists t,
    _mean self = ([CallSoftmax; CallDistMean], Done (Done t)) /\
    shape t = categorical.batch_shape_tensor c /\
    forall idx, in_shape idx (categorical.batch_shape_tensor c) ->
      let K := event_size self in
      at_index t idx
      = (big_sum (fun k => IZR (Z.of_nat k) * class_prob c idx k) (Z.to_nat K)
         + class_prob c idx (Z.to_nat K) * (at_index tm idx + IZR K))%R.
Proof.
  intros H Hd HN Ha Hm Hsm.
  apply init_done in H
    as (c' & d' & Hc & _ & Hd' & _ & _ & Hcat & Hdist & Hn & He & _).
  injection Hc as <-. rewrite Hd in Hd'. injection Hd' as <-.
  rewrite <- Hcat in Hn, He, HN.
  destruct (mean_unfolded self Hn He HN)
    as (tcm & tpk & Hs1 & Hs2 & Hat1 & Hat2 & E).
  rewrite Hcat in *. rewrite Hdist, Hm, Ha in E. cbn [obind] in E.
  unfold add, mul, binary, int, constant in E. cbn [obind shape] in E.
  rewrite broadcast_shapes_scalar_r in E. cbn [obind shape] in E.
  rewrite Hs2, Hsm, broadcast_shapes_same in E. cbn [obind shape] in E.
  rewrite Hs1, broadcast_shapes_same in E.
  eexists. split; [exact E|]. split; [reflexivity|].
  intros idx Hidx. cbv zeta. cbn [at_index shape].
  rewrite !(project_id _ _ Hidx), Hat1, Hat2 by exact Hidx.
  reflexivity.
Qed.

(** ** The variance *)

(** The variance, entry by entry, for at least two classes: the second
    moment minus the square of what [_mean] returns, which [_variance]
    obtains by calling [_mean] after its own calls of the components. *)
Lemma variance_formula c dist d va an nm ns σ self σ' (tm tv : Tensor R) :
  __init__ (PyCategorical c) dist va an nm ns σ = (Done self, σ') ->
  as_Distribution dist = Some d ->
  (2 <= categorical.num_classes c)%nat ->
  run_assertions (_assertions self) = Done tt ->
  distribution.mean d = Done (Done tm) ->
  distribution.variance d = Done (Done tv) ->
  shape tm = categorical.batch_shape_tensor c ->
  shape tv = categorical.batch_shape_tensor c ->
  exists t tmean,
    value (_mean self) = Done (Done tmean) /\
    value (_variance self) = Done (Done t) /\
    calls (_variance self)
    = [CallSoftmax; CallDistMean; CallDistVariance; CallDistMean]
      ++ calls (_mean self) /\
    shape t = categorical.batch_shape_tensor c /\
    forall idx, in_shape idx (categorical.batch_shape_tensor c) ->
      let K := event_size self in
      let m := at_index tm idx in
      at_index t idx
      = (big_sum (fun k => IZR (Z.of_nat k ^ 2) * class_prob c idx k) (Z.to_nat K)
         + class_prob c idx (Z.to_nat K)
           * (IZR (2 * K) * m + at_index tv idx + m * m + IZR (K ^ 2))
         - at_index tmean idx * at_index tmean idx)%R.
Proof.
  intros H Hd HN Ha Hm Hv Hsm Hsv.
  destruct (mean_formula c dist d va an nm ns σ self σ' tm H Hd HN Ha Hm Hsm)
    as (tmean & Emean & Hsmean & _).
  apply init_done in H
    as (c' & d' & Hc & _ & Hd' & _ & _ & Hcat & Hdist & Hn & He & _).
  injection Hc as <-. rewrite Hd in Hd'. injection Hd' as <-.
  rewrite <- Hcat in Hn, He, HN.
  destruct (variance_unfolded self Hn He HN)
    as (tc2 & tpk & Hs1 & Hs2 & Hat1 & Hat2 & E).
  rewrite Hcat in *.
  unfold control_dependencies, dist_mean, dist_variance in E.
  rewrite Hdist, Hm, Hv, Emean, Ha in E.
  cbn [bind tell lift ret app obind] in E.
  unfold sub, add, mul, square, unary, omap, binary, int, constant in E.
  cbn [obind shape] in E.
  rewrite broadcast_shapes_scalar_l in E. cbn [obind shape] in E.
  rewrite Hsm, Hsv, broadcast_shapes_same in E. cbn [obind shape] in E.
  rewrite broadcast_shapes_same in E. cbn [obind shape] in E.
  rewrite broadcast_shapes_scalar_r in E. cbn [obind shape] in E.
  rewrite Hs2, broadcast_shapes_same in E. cbn [obind shape] in E.
  rewrite Hs1, broadcast_shapes_same in E. cbn [obind shape] in E.
  rewrite Hsmean, broadcast_shapes_same in E.
  eexists. exists tmean.
  split; [now rewrite Emean|]. split; [now rewrite E|].
  split; [now rewrite E, Emean|]. split; [reflexivity|].
  intros idx Hidx. cbv zeta. cbn [at_index shape].
  rewrite !(project_id _ _ Hidx), Hat1, Hat2 by exact Hidx.
  ring.
Qed.

(** ** A categorical with a single class *)

(** With fewer than two classes there are no contributions to add up,
    and [add_n] refuses the empty list: [_mean] and [_variance] raise
    before the base component is asked anything. *)
Lemma mean_raises self :
  _event_size self = Z.of_nat (categorical.num_classes (_cat self)) - 1 ->
  (categorical.num_classes (_cat self) <= 1)%nat ->
  _mean self = ([CallSoftmax], Fail empty_sum_error).
Proof.
  intros He HN. unfold _mean, control_dependencies, _cat_probs.
  assert (Er : range (event_size self) = []).
  { unfold range, event_size. rewrite He.
    replace (Z.to_nat (Z.of_nat (categorical.num_classes (_cat self)) - 1))
      with 0%nat by lia.
    reflexivity. }
  rewrite Er. reflexivity.
Qed.

Lemma variance_raises self :
  _event_size self = Z.of_nat (categorical.num_classes (_cat self)) - 1 ->
  (categorical.num_classes (_cat self) <= 1)%nat ->
  _variance self = ([CallSoftmax], Fail empty_sum_error).
Proof.
  intros He HN. unfold _variance, control_dependencies, _cat_probs.
  assert (Er : range (event_size self) = []).
  { unfold range, event_size. rewrite He.
    replace (Z.to_nat (Z.of_nat (categorical.num_classes (_cat self)) - 1))
      with 0%nat by lia.
    reflexivity. }
  rewrite Er. reflexivity.
Qed.

(** C9.  A categorical with one class is accepted by the constructor
    (when the other checks pass: the base component is a distribution of
    known event rank, the class count is static, the name is a valid scope
    name, and with validation the batch shapes are not seen to differ
    while the graph is built) and gives [event_size = 0]; then [_mean] and
    [_variance] raise the error of [add_n] on an empty list.  With two
    classes or more they return, provided the base component's [mean] and
    [variance] do. *)
Theorem moments_need_two_classes c dist d va an nm ns σ :
  truthy dist = true ->
  as_Distribution dist = Some d ->
  ndims (distribution.event_shape d) <> None ->
  categorical.num_classes_static c = true ->
  valid_scope_name ns nm = true ->
  (va = true -> static_mismatch c d = false) ->
  exists self σ',
    __init__ (PyCategorical c) dist va an nm ns σ = (Done self, σ') /\
    (categorical.num_classes c = 1%nat ->
       event_size self = 0 /\
       value (_mean self) = Fail empty_sum_error /\
       value (_variance self) = Fail empty_sum_error) /\
    ((2 <= categorical.num_classes c)%nat ->
       forall m v,
         distribution.mean d = Done m ->
         distribution.variance d = Done v ->
         (exists n, value (_mean self) = Done n) /\
         (exists n, value (_variance self) = Done n)).
Proof.
  intros Ht Hd Hr Hs Hname Hshapes.
  destruct (init_succeeds c dist d va an nm ns σ Ht Hd Hr Hs Hname Hshapes)
    as (self & E).
  exists self. eexists. split; [exact E|].
  apply init_done in E
    as (c' & d' & Hc & _ & Hd' & _ & _ & Hcat & Hdist & Hn & He & _).
  injection Hc as <-. rewrite Hd in Hd'. injection Hd' as <-.
  rewrite <- Hcat in Hn, He. split.
  - intros H1. rewrite <- Hcat in H1. split; [|split].
    + unfold event_size. rewrite He, H1. reflexivity.
    + rewrite mean_raises by (try exact He; lia). reflexivity.
    + rewrite variance_raises by (try exact He; lia). reflexivity.
  - intros H2 m v Hm Hv. rewrite <- Hcat in H2.
    apply (moments_return self Hn He H2 m v); now rewrite Hdist.
Qed.

Lemma moments_need_two_classes_witness :
  exists self σ',
    __init__ (PyCategorical (uniform_categorical [] 1 1%positive))
             (PyDistribution point_mass_at_1)
             false true "Categorised" root two_lists = (Done self, σ') /\
    value (_mean self) = Fail empty_sum_error /\
    value (_variance self) = Fail empty_sum_error.
Proof.
  destruct (moments_need_two_classes (uniform_categorical [] 1 1%positive)
              (PyDistribution point_mass_at_1) point_mass_at_1
              false true "Categorised" root two_lists
              eq_refl eq_refl ltac:(discriminate) eq_refl eq_refl
              ltac:(discriminate))
    as (self & σ' & E & H1 & _).
  exists self, σ'. split; [exact E|]. exact (proj2 (H1 eq_refl)).
Defined.

(** C2, where the code departs from the claim.  A categorical with one
    class and the point mass at one: the claimed formula has no classes
    below [event_size = 0] to add up and gives
    [P(class=0) * (mean(base) + 0) = 1]; the code raises instead. *)
Theorem mean_of_single_class_raises :
  let c := uniform_categorical [] 1 1%positive in
  exists self σ',
    __init__ (PyCategorical c) (PyDistribution point_mass_at_1)
             false true "Categorised" root two_lists = (Done self, σ') /\
    event_size self = 0 /\
    (big_sum (fun k => IZR (Z.of_nat k) * class_prob c [] k) 0
     + class_prob c [] 0 * (1 + 0) = 1)%R /\
    _mean self = ([CallSoftmax], Fail empty_sum_error).
Proof.
  cbv zeta. eexists. eexists. split; [reflexivity|]. split; [reflexivity|].
  split.
  - unfold class_prob, class_weight, big_sum. simpl. rewrite exp_0. lra.
  - apply mean_raises; [reflexivity | simpl; lia].
Qed.

(** C3, where the code departs from the claim.  For the same
    distribution the claimed formula gives
    [P(class=0) * (0 + variance(base) + mean(base)² + 0) - 1² = 0]; the
    code raises instead. *)
Theorem variance_of_single_class_raises :
  let c := uniform_categorical [] 1 1%positive in
  exists self σ',
    __init__ (PyCategorical c) (PyDistribution point_mass_at_1)
             false true "Categorised" root two_lists = (Done self, σ') /\
    event_size self = 0 /\
    (big_sum (fun k => IZR (Z.of_nat k ^ 2) * class_prob c [] k) 0
     + class_prob c [] 0 * (IZR (2 * 0) * 1 + 0 + 1 * 1 + IZR (0 ^ 2))
     - 1 * 1 = 0)%R /\
    _variance self = ([CallSoftmax], Fail empty_sum_error).
Proof.
  cbv zeta. eexists. eexists. split; [reflexivity|]. split; [reflexivity|].
  split.
  - unfold class_prob, class_weight, big_sum. simpl. rewrite exp_0.
    change (0 ^ 2) with 0. change (2 * 0) with 0. lra.
  - apply variance_raises; [reflexivity | simpl; lia].
Qed.

(** ** The scenario: three classes, logits [0, 0, log 2], point mass at one *)

Lemma scenario_class_probs :
  class_prob scenario_categorical [] 0 = (1 / 4)%R /\
  class_prob scenario_categorical [] 1 = (1 / 4)%R /\
  class_prob scenario_categorical [] 2 = (1 / 2)%R.
Proof.
  unfold class_prob, class_weight, big_sum. simpl.
  rewrite exp_0, exp_ln by lra. repeat split; lra.
Qed.

(** The mean of the scenario is 1.75. *)
Lemma mean_scenario :
  exists self σ' t,
    __init__ (PyCategorical scenario_categorical) (PyDistribution point_mass_at_1)
             false true "Categorised" root two_lists = (Done self, σ') /\
    value (_mean self) = Done (Done t) /\
    shape t = [] /\
    at_index t [] = (175 / 100)%R.
Proof.
  destruct (mean_formula scenario_categorical (PyDistribution point_mass_at_1)
              point_mass_at_1 false true "Categorised" root two_lists _ _
              (mkTensor [] (fun _ => 1%R))
              eq_refl eq_refl ltac:(simpl; lia) eq_refl eq_refl eq_refl)
    as (t & Et & Hs & Hat).
  eexists _, _, t. split; [reflexivity|].
  split; [now rewrite Et|]. split; [exact Hs|].
  rewrite (Hat [] ltac:(constructor)).
  destruct scenario_class_probs as (P0 & P1 & P2).
  cbn [event_size _event_size at_index].
  change (run_value (categorical.event_size scenario_categorical) - 1) with 2.
  change (Z.to_nat 2) with 2%nat.
  unfold big_sum. cbn [seq map fold_right].
  change (Z.of_nat 0) with 0. change (Z.of_nat 1) with 1.
  rewrite P0, P1, P2. simpl. lra.
Qed.

(** The variance of the scenario is 4.75 - 1.75², that is 1.6875. *)
Lemma variance_scenario :
  exists self σ' t,
    __init__ (PyCategorical scenario_categorical) (PyDistribution point_mass_at_1)
             false true "Categorised" root two_lists = (Done self, σ') /\
    value (_variance self) = Done (Done t) /\
    shape t = [] /\
    at_index t [] = (16875 / 10000)%R.
Proof.
  destruct mean_scenario as (self0 & σ0 & tmean0 & E0 & Em0 & _ & Hm0).
  destruct (variance_formula scenario_categorical (PyDistribution point_mass_at_1)
              point_mass_at_1 false true "Categorised" root two_lists _ _
              (mkTensor [] (fun _ => 1%R)) (mkTensor [] (fun _ => 0%R))
              eq_refl eq_refl ltac:(simpl; lia) eq_refl eq_refl eq_refl
              eq_refl eq_refl)
    as (t & tmean & Em & Et & _ & Hs & Hat).
  injection E0 as Es _. subst self0.
  assert (Heq : tmean = tmean0)
    by (pose proof (eq_trans (eq_sym Em) Em0) as Heq; now injection Heq).
  subst tmean0.
  eexists _, _, t. split; [reflexivity|].
  split; [exact Et|]. split; [exact Hs|].
  rewrite (Hat [] ltac:(constructor)), Hm0.
  destruct scenario_class_probs as (P0 & P1 & P2).
  cbn [event_size _event_size at_index].
  change (run_value (categorical.event_size scenario_categorical) - 1) with 2.
  change (Z.to_nat 2) with 2%nat.
  unfold big_sum. cbn [seq map fold_right].
  change (Z.of_nat 0) with 0. change (Z.of_nat 1) with 1.
  rewrite P0, P1, P2. simpl.
  change (0 ^ 2) with 0. change (1 ^ 2) with 1.
  change (2 * 2) with 4. change (2 ^ 2) with 4. lra.
Qed.

(** ** The deferred shape assertions *)

Lemma shape_assertions_fail c d :
  categorical.batch_shape_tensor c <> distribution.batch_shape_tensor d ->
  run_assertions (shape_assertions true c d)
  = Fail (InvalidArgumentError check_message).
Proof.
  intros Hne. unfold shape_assertions, assert_equal.
  cbn [run_assertions holds message].
  destruct (bool_decide (length (categorical.batch_shape_tensor c)
                         = length (distribution.batch_shape_tensor d)));
    [|reflexivity].
  now rewrite bool_decide_eq_false_2.
Qed.







(** * Further properties *)

(** ** Sums and class probabilities *)

Lemma big_sum_S (f : nat -> R) (n : nat) :
  big_sum f (S n) = (big_sum f n + f n)%R.
Proof.
  unfold big_sum. rewrite seq_S, map_app, fold_right_app. cbn [map fold_right Nat.add].
  generalize (seq 0 n). intros l. induction l as [|a l IH]; cbn [map fold_right].
  - lra.
  - rewrite IH. lra.
Qed.

Lemma big_sum_nonneg (f : nat -> R) (n : nat) :
  (forall k, (k < n)%nat -> (0 <= f k)%R) -> (0 <= big_sum f n)%R.
Proof.
  induction n as [|n IH]; intros H.
  - unfold big_sum. simpl. lra.
  - rewrite big_sum_S.
    assert (0 <= big_sum f n)%R by (apply IH; intros; apply H; lia).
    assert (0 <= f n)%R by (apply H; lia). lra.
Qed.


Lemma big_sum_scale (f : nat -> R) (a : R) (n : nat) :
  big_sum (fun k => f k * a)%R n = (big_sum f n * a)%R.
Proof.
  induction n as [|n IH].
  - unfold big_sum. simpl. lra.
  - rewrite !big_sum_S, IH. lra.
Qed.

Lemma big_sum_le (f g : nat -> R) (n : nat) :
  (forall k, (k < n)%nat -> (f k <= g k)%R) -> (big_sum f n <= big_sum g n)%R.
Proof.
  induction n as [|n IH]; intros H.
  - unfold big_sum. simpl. lra.
  - rewrite !big_sum_S.
    assert (big_sum f n <= big_sum g n)%R by (apply IH; intros; apply H; lia).
    assert (f n <= g n)%R by (apply H; lia). lra.
Qed.



Lemma class_weight_sum_pos c (b : list nat) :
  (1 <= categorical.num_classes c)%nat ->
  (0 < big_sum (class_weight c b) (categorical.num_classes c))%R.
Proof.
  intros HN. apply big_sum_pos; [|exact HN]. intros j. apply exp_pos.
Qed.

Lemma class_prob_pos c (b : list nat) (k : nat) :
  (1 <= categorical.num_classes c)%nat -> (0 < class_prob c b k)%R.
Proof.
  intros HN. unfold class_prob. apply Rdiv_lt_0_compat.
  - apply exp_pos.
  - apply class_weight_sum_pos. exact HN.
Qed.

(** The class probabilities of a batch position add up to one. *)
Lemma class_prob_sum c (b : list nat) :
  (1 <= categorical.num_classes c)%nat ->
  big_sum (class_prob c b) (categorical.num_classes c) = 1%R.
Proof.
  intros HN. pose proof (class_weight_sum_pos c b HN) as Hs.
  unfold class_prob, Rdiv. rewrite big_sum_scale. field. lra.
Qed.

Lemma class_prob_le_1 c (b : list nat) (k : nat) :
  (k < categorical.num_classes c)%nat -> (class_prob c b k <= 1)%R.
Proof.
  intros Hk.
  assert (HN : (1 <= categorical.num_classes c)%nat) by lia.
  rewrite <- (class_prob_sum c b HN).
  assert (H : forall n, (k < n)%nat ->
            (class_prob c b k <= big_sum (class_prob c b) n)%R).
  { induction n as [|n IH]; intros Hn; [lia|].
    rewrite big_sum_S.
    pose proof (class_prob_pos c b n HN).
    destruct (Nat.eq_dec k n) as [->|Hne].
    - assert (0 <= big_sum (class_prob c b) n)%R.
      { apply big_sum_nonneg. intros j _.
        apply Rlt_le, class_prob_pos, HN. }
      lra.
    - specialize (IH ltac:(lia)). lra. }
  apply H. exact Hk.
Qed.

Lemma exp_class_log_prob c (b : list nat) (k : nat) :
  (1 <= categorical.num_classes c)%nat ->
  Rtrigo_def.exp (class_log_prob c b k) = class_prob c b k.
Proof.
  intros HN. rewrite <- (ln_class_prob c b k HN).
  apply exp_ln, class_prob_pos, HN.
Qed.

(** ** The list of class probabilities *)

(** The list [_cat_probs] returns when asked for logarithms. *)
Lemma cat_log_probs_done self :
  _static_cat_event_size self = Z.of_nat (categorical.num_classes (_cat self)) ->
  exists ls : list (Tensor R),
    _cat_probs self true = ([CallSoftmax], Done (map Done ls)) /\
    length ls = categorical.num_classes (_cat self) /\
    forall k, (k < categorical.num_classes (_cat self))%nat ->
      exists l, nth_error ls k = Some l /\
        shape l = categorical.batch_shape_tensor (_cat self) /\
        forall idx, at_index l idx = class_log_prob (_cat self) idx k.
Proof.
  intros Hn. set (c := _cat self) in *.
  destruct (log_softmax_logits c) as (sm & Esm & Hsm & Hatsm).
  exists (map (fun k => mkTensor (categorical.batch_shape_tensor c)
                          (fun idx => at_index sm (idx ++ [k])))
              (seq 0 (categorical.num_classes c))).
  split; [|split].
  - unfold _cat_probs, cat. fold c. rewrite Hn.
    cbn [bind tell ret app]. f_equal. f_equal.
    unfold unstack. rewrite Nat2Z.id, map_map.
    apply map_ext. intros k. unfold slice_last. rewrite Esm. cbn [obind].
    rewrite Hsm, last_last, removelast_last, Z.eqb_refl.
    destruct (categorical.batch_shape_tensor c ++ [categorical.num_classes c])
      eqn:E; [|reflexivity].
    destruct (categorical.batch_shape_tensor c); discriminate.
  - now rewrite length_map, length_seq.
  - intros k Hk. eexists. split.
    + rewrite nth_error_map, nth_error_seq.
      destruct (Nat.ltb_spec k (categorical.num_classes c)); [|lia].
      reflexivity.
    + split; [reflexivity|]. intros idx. cbn [at_index]. apply Hatsm.
Qed.




(** X5.  The two modes of [_cat_probs] agree: the tensors returned for
    [log_probs=True] have the shapes of those returned for
    [log_probs=False], and the exponential of each entry of the former is
    the matching entry of the latter. *)
Theorem cat_probs_modes_agree c dist va an nm ns σ self σ' :
  __init__ (PyCategorical c) dist va an nm ns σ = (Done self, σ') ->
  (1 <= categorical.num_classes c)%nat ->
  exists ps ls : list (Tensor R),
    _cat_probs self false = ([CallSoftmax], Done (map Done ps)) /\
    _cat_probs self true = ([CallSoftmax], Done (map Done ls)) /\
    length ps = categorical.num_classes c /\
    length ls = categorical.num_classes c /\
    forall k p l,
      nth_error ps k = Some p -> nth_error ls k = Some l ->
      shape l = shape p /\
      forall idx, Rtrigo_def.exp (at_index l idx) = at_index p idx.
Proof.
  intros H HN.
  apply init_done in H as (c' & d & Hc & _ & _ & _ & _ & Hcat & _ & Hn & _).
  injection Hc as <-. rewrite <- Hcat in Hn.
  destruct (cat_probs_done self Hn) as (ps & Ep & Hlp & Hps).
  destruct (cat_log_probs_done self Hn) as (ls & El & Hll & Hls).
  rewrite Hcat in *.
  exists ps, ls. repeat (split; [assumption|]).
  intros k p l Hp Hl.
  assert (Hlt : (k < categorical.num_classes c)%nat).
  { rewrite <- Hlp. apply nth_error_Some. congruence. }
  destruct (Hps k Hlt) as (p' & Ep' & Hsp & Hatp).
  destruct (Hls k Hlt) as (l' & El' & Hsl & Hatl).
  rewrite Hp in Ep'. injection Ep' as <-.
  rewrite Hl in El'. injection El' as <-.
  split; [congruence|]. intros idx.
  rewrite Hatl, Hatp. apply exp_class_log_prob. exact HN.
Qed.

Lemma cat_probs_modes_agree_witness :
  exists self σ' ps ls,
    __init__ (PyCategorical scenario_categorical) (PyDistribution point_mass_at_1)
             false true "Categorised" root two_lists = (Done self, σ') /\
    _cat_probs self false = ([CallSoftmax], Done (map Done ps)) /\
    _cat_probs self true = ([CallSoftmax], Done (map Done ls)) /\
    length ls = length ps.
Proof.
  destruct (cat_probs_modes_agree scenario_categorical
              (PyDistribution point_mass_at_1) false true "Categorised" root
              two_lists _ _ eq_refl ltac:(simpl; lia))
    as (ps & ls & Ep & El & Hp & Hl & _).
  eexists _, _, ps, ls. split; [reflexivity|].
  split; [exact Ep|]. split; [exact El|]. congruence.
Defined.

(** ** Densities, entry by entry *)

Lemma label_of_below (K : Z) (v : R) :
  0 <= K <= int32_max -> (v < IZR K)%R ->
  label_of K v = Z.max 0 (Zfloor v).
Proof.
  intros [H0 H1] Hv. unfold label_of.
  rewrite Rmin_left by lra.
  destruct (Rle_dec 0 v) as [Hpos|Hneg].
  - rewrite Rmax_left by exact Hpos.
    destruct (to_int32_clipped v K H1) as [-> [Hlo _]]; [lra|]. lia.
  - rewrite Rmax_right by lra.
    destruct (to_int32_clipped 0 K H1) as [-> _];
      [split; [lra | apply IZR_le; exact H0]|].
    rewrite (ZfloorZ 0).
    assert (Hf : Zfloor v < 0).
    { destruct (Z.lt_ge_cases (Zfloor v) 0) as [Hlt|Hge]; [exact Hlt|].
      exfalso. apply Hneg.
      apply Rle_trans with (IZR (Zfloor v)); [apply IZR_le; lia|].
      apply Zfloor_bound. }
    lia.
Qed.

(** What [_log_prob] returns and which calls it makes, for an argument
    the batch broadcasts to and a base component that answers. *)
Lemma log_prob_entries c dist d va an nm ns σ self σ' (tx tb : Tensor R) :
  __init__ (PyCategorical c) dist va an nm ns σ = (Done self, σ') ->
  as_Distribution dist = Some d ->
  (1 <= categorical.num_classes c)%nat ->
  Z.of_nat (categorical.num_classes c) - 1 <= int32_max ->
  run_assertions (_assertions self) = Done tt ->
  broadcast_shapes (shape tx) (categorical.batch_shape_tensor c) = Some (shape tx) ->
  distribution.log_prob d (sub (Done tx) (int (event_size self))) = Done (Done tb) ->
  shape tb = shape tx ->
  exists t,
    _log_prob self (Done tx) = ([CallCatLogProb; CallDistLogProb], Done (Done t)) /\
    shape t = shape tx /\
    forall idx, in_shape idx (shape tx) ->
      let K := event_size self in
      let v := at_index tx idx in
      let score :=
        class_log_prob c (project (categorical.batch_shape_tensor c) idx)
          (Z.to_nat (label_of K v)) in
      at_index t idx
      = if Rlt_dec v (IZR K) then score else (score + at_index tb idx)%R.
Proof.
  intros H Hd HN Hmax Ha Hs Hb Hsb.
  apply init_done in H
    as (c' & d' & Hc & _ & Hd' & _ & _ & Hcat & Hdist & _ & He & _).
  injection Hc as <-. rewrite Hd in Hd'. injection Hd' as <-.
  assert (HK : 0 <= event_size self <= int32_max)
    by (unfold event_size; rewrite He; lia).
  destruct (categorical_log_prob_done c
              (mkTensor (shape tx)
                 (fun idx => label_of (event_size self)
                    (at_index tx (project (shape tx) (project (shape tx) idx)))))
              (shape tx) Hs) as (t1 & Et1 & Hst1 & Hat1).
  { intros idx. cbn [at_index]. unfold categorical.label_in_range.
    pose proof (label_of_range (event_size self)
      (at_index tx (project (shape tx) (project (shape tx) idx))) HK) as Hr.
    unfold event_size in Hr |- *. rewrite He in Hr |- *.
    apply andb_true_intro. split; [apply Z.leb_le | apply Z.ltb_lt]; lia. }
  assert (Eta : sub (Done tx) (int (event_size self))
                = Done (mkTensor (shape tx)
                          (fun idx => at_index tx (project (shape tx) idx)
                                      - IZR (event_size self))%R)).
  { unfold sub, binary, int, constant. cbn [obind shape].
    rewrite broadcast_shapes_scalar_r. reflexivity. }
  rewrite Eta in Hb.
  unfold _log_prob, control_dependencies, convert_to_tensor,
    cat_log_prob, dist_log_prob.
  rewrite clipped_label_done, Hcat, Et1, Hdist, Eta, Hb.
  cbn [bind tell lift ret app]. rewrite Ha. cbn [obind].
  unfold where_, less, add, binary, int, constant. cbn [obind shape].
  rewrite broadcast_shapes_scalar_r, Hst1, Hsb, broadcast_shapes_same.
  cbn [obind shape].
  rewrite !decide_True by reflexivity.
  eexists. split; [reflexivity|]. split; [reflexivity|].
  intros idx Hidx. cbv zeta. cbn [at_index].
  rewrite !(project_id _ _ Hidx), !Hat1. cbn [at_index shape].
  rewrite !(project_id _ _ Hidx).
  unfold Rlt_bool.
  now destruct (Rlt_dec (at_index tx idx) (IZR (event_size self))).
Qed.

(** X6.  Below [event_size], [log_prob] is a step function of its
    argument: an entry [v < event_size] is scored as the class
    [floor v] when [v >= 0] and as class [0] when [v < 0], so fractional
    and negative values are accepted and silently rounded. *)
Theorem log_prob_is_a_step_function c dist d va an nm ns σ self σ' (tx tb : Tensor R) :
  __init__ (PyCategorical c) dist va an nm ns σ = (Done self, σ') ->
  as_Distribution dist = Some d ->
  (1 <= categorical.num_classes c)%nat ->
  Z.of_nat (categorical.num_classes c) - 1 <= int32_max ->
  run_assertions (_assertions self) = Done tt ->
  broadcast_shapes (shape tx) (categorical.batch_shape_tensor c) = Some (shape tx) ->
  distribution.log_prob d (sub (Done tx) (int (event_size self))) = Done (Done tb) ->
  shape tb = shape tx ->
  exists t,
    value (_log_prob self (Done tx)) = Done (Done t) /\
    forall idx, in_shape idx (shape tx) ->
      let v := at_index tx idx in
      let b := project (categorical.batch_shape_tensor c) idx in
      (v < IZR (event_size self))%R ->
      at_index t idx = class_log_prob c b (Z.to_nat (Zfloor v)) /\
      ((v < 0)%R -> at_index t idx = class_log_prob c b 0) /\
      (at_index t idx <= 0)%R.
Proof.
  intros H Hd HN Hmax Ha Hs Hb Hsb.
  destruct (log_prob_entries c dist d va an nm ns σ self σ' tx tb
              H Hd HN Hmax Ha Hs Hb Hsb) as (t & Et & _ & Hat).
  apply init_done in H as (c' & d' & Hc & _ & _ & _ & _ & _ & _ & _ & He & _).
  injection Hc as <-.
  assert (HK : 0 <= event_size self <= int32_max)
    by (unfold event_size; rewrite He; lia).
  exists t. split; [now rewrite Et|].
  intros idx Hidx. cbv zeta. intros Hv.
  rewrite (Hat idx Hidx). cbv zeta.
  destruct (Rlt_dec (at_index tx idx) (IZR (event_size self))) as [_|Hn];
    [|contradiction].
  rewrite (label_of_below _ _ HK Hv).
  assert (Ek : Z.to_nat (Z.max 0 (Zfloor (at_index tx idx)))
               = Z.to_nat (Zfloor (at_index tx idx))) by lia.
  rewrite Ek. split; [reflexivity|]. split.
  - intros Hneg.
    assert (Hf : Zfloor (at_index tx idx) < 0).
    { destruct (Z.lt_ge_cases (Zfloor (at_index tx idx)) 0) as [Hlt|Hge];
        [exact Hlt|].
      exfalso. pose proof (Zfloor_bound (at_index tx idx)) as [Hb1 _].
      apply IZR_le in Hge. lra. }
    now replace (Z.to_nat (Zfloor (at_index tx idx))) with 0%nat by lia.
  - assert (Hlt : (Z.to_nat (Zfloor (at_index tx idx))
                   < categorical.num_classes c)%nat).
    { pose proof (Zfloor_bound (at_index tx idx)) as [Hb1 _].
      assert (Zfloor (at_index tx idx) < event_size self).
      { apply lt_IZR. lra. }
      unfold event_size in *. rewrite He in *. lia. }
    rewrite <- (ln_class_prob c _ _ HN).
    rewrite <- ln_1.
    pose proof (class_prob_pos c (project (categorical.batch_shape_tensor c) idx)
                  (Z.to_nat (Zfloor (at_index tx idx))) HN) as Hp.
    pose proof (class_prob_le_1 c (project (categorical.batch_shape_tensor c) idx)
                  _ Hlt) as Hp1.
    destruct (Rle_lt_or_eq_dec _ _ Hp1) as [Hl|Heq]; [|rewrite Heq; lra].
    apply Rlt_le, ln_increasing; assumption.
Qed.

Lemma log_prob_is_a_step_function_witness :
  exists self σ' t,
    __init__ (PyCategorical scenario_categorical)
             (PyDistribution (exponential [] 2%positive))
             false true "Categorised" root two_lists = (Done self, σ') /\
    value (_log_prob self (Done (scalar_input (-3)))) = Done (Done t) /\
    at_index t [] = class_log_prob scenario_categorical [] 0.
Proof.
  destruct (log_prob_is_a_step_function scenario_categorical
              (PyDistribution (exponential [] 2%positive))
              (exponential [] 2%positive)
              false true "Categorised" root two_lists _ _ (scalar_input (-3)) _
              eq_refl eq_refl
              ltac:(simpl; lia) ltac:(vm_compute; discriminate)
              eq_refl eq_refl eq_refl eq_refl)
    as (t & Et & Hat).
  destruct (Hat [] ltac:(constructor) ltac:(change (-3 < 2)%R; lra))
    as (_ & Hneg & _).
  eexists _, _, t. split; [reflexivity|]. split; [exact Et|].
  exact (Hneg ltac:(change (-3 < 0)%R; lra)).
Defined.



(** ** Failures of the base component *)

(** X8.  An exception raised by the base component's [log_prob] leaves
    [log_prob] and [prob] by the same exception, after the categorical
    component has been asked. *)
Theorem log_prob_raises_with_the_base c dist d va an nm ns σ self σ' (x : Node R) e :
  __init__ (PyCategorical c) dist va an nm ns σ = (Done self, σ') ->
  as_Distribution dist = Some d ->
  distribution.log_prob d (sub x (int (event_size self))) = Fail e ->
  _log_prob self x = ([CallCatLogProb; CallDistLogProb], Fail e) /\
  _prob self x = ([CallCatLogProb; CallDistLogProb], Fail e).
Proof.
  intros H Hd Hb.
  apply init_done in H as (c' & d' & _ & _ & Hd' & _ & _ & _ & Hdist & _).
  rewrite Hd in Hd'. injection Hd' as <-.
  assert (E : _log_prob self x = ([CallCatLogProb; CallDistLogProb], Fail e)).
  { unfold _log_prob, control_dependencies, convert_to_tensor,
      cat_log_prob, dist_log_prob.
    rewrite Hdist, Hb. reflexivity. }
  split; [exact E|]. unfold _prob. now rewrite E.
Qed.

Lemma log_prob_raises_with_the_base_witness :
  exists self σ',
    __init__ (PyCategorical scenario_categorical) (PyDistribution point_mass_at_1)
             false true "Categorised" root two_lists = (Done self, σ') /\
    value (_log_prob self (Done (scalar_input 1)))
    = Fail (NotImplementedError "log_prob is not implemented").
Proof.
  eexists _, _. split; [reflexivity|].
  exact (f_equal snd
    (proj1 (log_prob_raises_with_the_base scenario_categorical
       (PyDistribution point_mass_at_1) point_mass_at_1
       false true "Categorised" root two_lists _ _ (Done (scalar_input 1)) _
       eq_refl eq_refl eq_refl))).
Defined.

(** X9.  [where] takes both of its branches as tensors: when evaluating
    the base component's log-density fails, evaluating [log_prob(x)]
    fails with the same error, also when every entry of [x] is below
    [event_size] and the base component's value would not be used. *)
Theorem log_prob_fails_with_the_base c dist d va an nm ns σ self σ'
    (tx : Tensor R) (s : list nat) e :
  __init__ (PyCategorical c) dist va an nm ns σ = (Done self, σ') ->
  as_Distribution dist = Some d ->
  (1 <= categorical.num_classes c)%nat ->
  Z.of_nat (categorical.num_classes c) - 1 <= int32_max ->
  run_assertions (_assertions self) = Done tt ->
  broadcast_shapes (shape tx) (categorical.batch_shape_tensor c) = Some s ->
  distribution.log_prob d (sub (Done tx) (int (event_size self))) = Done (Fail e) ->
  value (_log_prob self (Done tx)) = Done (Fail e).
Proof.
  intros H Hd HN Hmax Ha Hs Hb.
  apply init_done in H
    as (c' & d' & Hc & _ & Hd' & _ & _ & Hcat & Hdist & _ & He & _).
  injection Hc as <-. rewrite Hd in Hd'. injection Hd' as <-.
  assert (HK : 0 <= event_size self <= int32_max)
    by (unfold event_size; rewrite He; lia).
  destruct (categorical_log_prob_done c
              (mkTensor (shape tx)
                 (fun idx => label_of (event_size self)
                    (at_index tx (project (shape tx) (project (shape tx) idx)))))
              s Hs) as (t1 & Et1 & _ & _).
  { intros idx. cbn [at_index]. unfold categorical.label_in_range.
    pose proof (label_of_range (event_size self)
      (at_index tx (project (shape tx) (project (shape tx) idx))) HK) as Hr.
    unfold event_size in Hr |- *. rewrite He in Hr |- *.
    apply andb_true_intro. split; [apply Z.leb_le | apply Z.ltb_lt]; lia. }
  unfold _log_prob, control_dependencies, convert_to_tensor,
    cat_log_prob, dist_log_prob.
  rewrite clipped_label_done, Hcat, Et1, Hdist, Hb.
  cbn [value bind tell lift ret snd]. rewrite Ha. cbn [obind].
  unfold where_, less, add, binary, int, constant. cbn [obind shape].
  now rewrite broadcast_shapes_scalar_r.
Qed.

Lemma log_prob_fails_with_the_base_witness :
  exists self σ',
    __init__ (PyCategorical scenario_categorical)
             (PyDistribution (validating_exponential [] 2%positive))
             false true "Categorised" root two_lists = (Done self, σ') /\
    event_size self = 2 /\
    value (_log_prob self (Done (scalar_input 1))) = Done (Fail negative_sample).
Proof.
  eexists _, _. split; [reflexivity|]. split; [reflexivity|].
  apply (log_prob_fails_with_the_base scenario_categorical
           (PyDistribution (validating_exponential [] 2%positive))
           (validating_exponential [] 2%positive)
           false true "Categorised" root two_lists _ _ (scalar_input 1) []
           negative_sample eq_refl eq_refl
           ltac:(simpl; lia) ltac:(vm_compute; discriminate) eq_refl eq_refl).
  cbn.
  match goal with
  | |- context [Rle_dec ?a ?b] => destruct (Rle_dec a b) as [Hle|_]
  end; [exfalso; change (0 <= 1 - 2)%R in Hle; lra | reflexivity].
Defined.

(** ** The moments of the mixture *)


(** The classes below the last one carry the rest of the mass. *)
Lemma class_prob_split c (b : list nat) (K : nat) :
  categorical.num_classes c = S K ->
  (big_sum (class_prob c b) K + class_prob c b K = 1)%R.
Proof.
  intros HN. rewrite <- big_sum_S, <- HN. apply class_prob_sum. lia.
Qed.

(** X1.  For two classes or more, matching batch shapes and a base
    component that has a mean, [mean()] asks softmax once and the base
    component once, and returns at each batch position
    [sum_{k < event_size} k * P(class=k)
     + P(class=event_size) * (mean(base) + event_size)];
    when the base mean is not negative, the result lies between [0] and
    [event_size + mean(base)]. *)
Theorem mean_of_the_mixture c dist d va an nm ns σ self σ' (tm : Tensor R) :
  __init__ (PyCategorical c) dist va an nm ns σ = (Done self, σ') ->
  as_Distribution dist = Some d ->
  (2 <= categorical.num_classes c)%nat ->
  run_assertions (_assertions self) = Done tt ->
  distribution.mean d = Done (Done tm) ->
  shape tm = categorical.batch_shape_tensor c ->
  exists t,
    _mean self = ([CallSoftmax; CallDistMean], Done (Done t)) /\
    shape t = categorical.batch_shape_tensor c /\
    forall idx, in_shape idx (categorical.batch_shape_tensor c) ->
      let K := event_size self in
      let m := at_index tm idx in
      at_index t idx
      = (big_sum (fun k => IZR (Z.of_nat k) * class_prob c idx k) (Z.to_nat K)
         + class_prob c idx (Z.to_nat K) * (m + IZR K))%R /\
      ((0 <= m)%R -> (0 <= at_index t idx <= IZR K + m)%R).
Proof.
  intros H Hd HN Ha Hm Hsm.
  destruct (mean_formula c dist d va an nm ns σ self σ' tm H Hd HN Ha Hm Hsm)
    as (t & Et & Hst & Hat).
  apply init_done in H as (c' & d' & Hc & _ & _ & _ & _ & _ & _ & _ & He & _).
  injection Hc as <-.
  exists t. split; [exact Et|]. split; [exact Hst|].
  intros idx Hidx. cbv zeta. split; [apply (Hat idx Hidx)|].
  intros Hm0. rewrite (Hat idx Hidx). cbv zeta.
  assert (HN1 : (1 <= categorical.num_classes c)%nat) by lia.
  assert (EK : categorical.num_classes c = S (Z.to_nat (event_size self)))
    by (unfold event_size; rewrite He; lia).
  assert (EKz : IZR (event_size self) = INR (Z.to_nat (event_size self))).
  { rewrite INR_IZR_INZ. f_equal. unfold event_size. rewrite He. lia. }
  pose proof (class_prob_split c idx _ EK) as Hsplit.
  pose proof (class_prob_pos c idx (Z.to_nat (event_size self)) HN1) as Hq.
  set (q := class_prob c idx (Z.to_nat (event_size self))) in *.
  set (Kn := Z.to_nat (event_size self)) in *.
  assert (Hlow : (0 <= big_sum (fun k => IZR (Z.of_nat k) * class_prob c idx k) Kn)%R).
  { apply big_sum_nonneg. intros k _. apply Rmult_le_pos.
    - apply IZR_le. lia.
    - apply Rlt_le, class_prob_pos, HN1. }
  assert (Hup : (big_sum (fun k => IZR (Z.of_nat k) * class_prob c idx k) Kn
                 <= big_sum (class_prob c idx) Kn * IZR (event_size self))%R).
  { rewrite <- big_sum_scale. apply big_sum_le. intros k Hk.
    rewrite Rmult_comm. apply Rmult_le_compat_l.
    - apply Rlt_le, class_prob_pos, HN1.
    - rewrite EKz, <- INR_IZR_INZ. apply le_INR. lia. }
  assert (HK0 : (0 <= IZR (event_size self))%R)
    by (rewrite EKz; apply pos_INR).
  assert (Hq1 : (q <= 1)%R).
  { assert (0 <= big_sum (class_prob c idx) Kn)%R.
    { apply big_sum_nonneg. intros k _. apply Rlt_le, class_prob_pos, HN1. }
    lra. }
  split; [nra|].
  replace (big_sum (class_prob c idx) Kn) with (1 - q)%R in Hup by lra.
  nra.
Qed.

Lemma mean_of_the_mixture_witness :
  exists self σ' t,
    __init__ (PyCategorical scenario_categorical) (PyDistribution point_mass_at_1)
             false true "Categorised" root two_lists = (Done self, σ') /\
    value (_mean self) = Done (Done t) /\
    (0 <= at_index t [] <= 2 + 1)%R.
Proof.
  destruct (mean_of_the_mixture scenario_categorical
              (PyDistribution point_mass_at_1) point_mass_at_1
              false true "Categorised" root two_lists _ _
              (mkTensor [] (fun _ => 1%R))
              eq_refl eq_refl ltac:(simpl; lia) eq_refl eq_refl eq_refl)
    as (t & Et & _ & Hat).
  destruct (Hat [] ltac:(constructor)) as [_ Hb].
  eexists _, _, t. split; [reflexivity|]. split; [now rewrite Et|].
  exact (Hb ltac:(change (0 <= 1)%R; lra)).
Defined.

(** The variance in terms of the components alone. *)
Lemma variance_entries c dist d va an nm ns σ self σ' (tm tv : Tensor R) :
  __init__ (PyCategorical c) dist va an nm ns σ = (Done self, σ') ->
  as_Distribution dist = Some d ->
  (2 <= categorical.num_classes c)%nat ->
  run_assertions (_assertions self) = Done tt ->
  distribution.mean d = Done (Done tm) ->
  distribution.variance d = Done (Done tv) ->
  shape tm = categorical.batch_shape_tensor c ->
  shape tv = categorical.batch_shape_tensor c ->
  exists t,
    _variance self
    = ([CallSoftmax; CallDistMean; CallDistVariance; CallDistMean;
        CallSoftmax; CallDistMean], Done (Done t)) /\
    shape t = categorical.batch_shape_tensor c /\
    forall idx, in_shape idx (categorical.batch_shape_tensor c) ->
      let K := event_size self in
      let m := at_index tm idx in
      let q := class_prob c idx (Z.to_nat K) in
      let mu :=
        (big_sum (fun k => IZR (Z.of_nat k) * class_prob c idx k) (Z.to_nat K)
         + q * (m + IZR K))%R in
      at_index t idx
      = (big_sum (fun k => IZR (Z.of_nat k ^ 2) * class_prob c idx k) (Z.to_nat K)
         + q * (IZR (2 * K) * m + at_index tv idx + m * m + IZR (K ^ 2))
         - mu * mu)%R.
Proof.
  intros H Hd HN Ha Hm Hv Hsm Hsv.
  destruct (mean_formula c dist d va an nm ns σ self σ' tm H Hd HN Ha Hm Hsm)
    as (tmean & Emean & _ & Hatm).
  destruct (variance_formula c dist d va an nm ns σ self σ' tm tv
              H Hd HN Ha Hm Hv Hsm Hsv)
    as (t & tmean' & Em' & Et & Hcalls & Hst & Hat).
  rewrite Emean in Em'. injection Em' as <-.
  exists t. split; [|split; [exact Hst|]].
  - destruct (_variance self) as [l r]. cbn [value calls fst snd] in *.
    rewrite Emean in Hcalls. cbn [fst app] in Hcalls. now subst.
  - intros idx Hidx. cbv zeta.
    rewrite (Hat idx Hidx). cbv zeta. now rewrite (Hatm idx Hidx).
Qed.

(** X2.  For two classes or more, matching batch shapes and a base
    component with a mean and a variance, [variance()] returns at each
    batch position the second moment
    [sum_{k < K} k² P(class=k) + P(class=K) (2 K m + v + m² + K²)]
    minus the square of the mean of the mixture, where [K] is
    [event_size] and [m], [v] are the base mean and variance.  It asks
    the base component for its mean three times and softmax twice: its
    own calls are followed by those of [_mean]. *)
Theorem variance_of_the_mixture c dist d va an nm ns σ self σ' (tm tv : Tensor R) :
  __init__ (PyCategorical c) dist va an nm ns σ = (Done self, σ') ->
  as_Distribution dist = Some d ->
  (2 <= categorical.num_classes c)%nat ->
  run_assertions (_assertions self) = Done tt ->
  distribution.mean d = Done (Done tm) ->
  distribution.variance d = Done (Done tv) ->
  shape tm = categorical.batch_shape_tensor c ->
  shape tv = categorical.batch_shape_tensor c ->
  exists t,
    _variance self
    = ([CallSoftmax; CallDistMean; CallDistVariance; CallDistMean]
       ++ calls (_mean self), Done (Done t)) /\
    calls (_mean self) = [CallSoftmax; CallDistMean] /\
    shape t = categorical.batch_shape_tensor c /\
    forall idx, in_shape idx (categorical.batch_shape_tensor c) ->
      let K := event_size self in
      let m := at_index tm idx in
      let q := class_prob c idx (Z.to_nat K) in
      let mu :=
        (big_sum (fun k => IZR (Z.of_nat k) * class_prob c idx k) (Z.to_nat K)
         + q * (m + IZR K))%R in
      at_index t idx
      = (big_sum (fun k => IZR (Z.of_nat k ^ 2) * class_prob c idx k) (Z.to_nat K)
         + q * (IZR (2 * K) * m + at_index tv idx + m * m + IZR (K ^ 2))
         - mu * mu)%R.
Proof.
  intros H Hd HN Ha Hm Hv Hsm Hsv.
  destruct (mean_formula c dist d va an nm ns σ self σ' tm H Hd HN Ha Hm Hsm)
    as (tmean & Emean & _ & _).
  destruct (variance_entries c dist d va an nm ns σ self σ' tm tv
              H Hd HN Ha Hm Hv Hsm Hsv) as (t & Et & Hst & Hat).
  exists t. rewrite Emean. cbn [calls fst app].
  split; [exact Et|]. split; [reflexivity|]. split; [exact Hst | exact Hat].
Qed.

Lemma variance_of_the_mixture_witness :
  exists self σ' t,
    __init__ (PyCategorical scenario_categorical) (PyDistribution point_mass_at_1)
             false true "Categorised" root two_lists = (Done self, σ') /\
    value (_variance self) = Done (Done t) /\
    shape t = [].
Proof.
  destruct (variance_of_the_mixture scenario_categorical
              (PyDistribution point_mass_at_1) point_mass_at_1
              false true "Categorised" root two_lists _ _
              (mkTensor [] (fun _ => 1%R)) (mkTensor [] (fun _ => 0%R))
              eq_refl eq_refl ltac:(simpl; lia) eq_refl eq_refl eq_refl
              eq_refl eq_refl)
    as (t & Et & _ & Hst & _).
  eexists _, _, t. split; [reflexivity|]. split; [now rewrite Et | exact Hst].
Defined.



(** X10.  For two classes or more, an exception raised by the base
    component's [mean] leaves both [mean()] and [variance()], after one
    softmax and that one call; [variance()] does not get to ask for the
    base variance. *)
Theorem moments_raise_with_the_base c dist d va an nm ns σ self σ' e :
  __init__ (PyCategorical c) dist va an nm ns σ = (Done self, σ') ->
  as_Distribution dist = Some d ->
  (2 <= categorical.num_classes c)%nat ->
  distribution.mean d = Fail e ->
  _mean self = ([CallSoftmax; CallDistMean], Fail e) /\
  _variance self = ([CallSoftmax; CallDistMean], Fail e).
Proof.
  intros H Hd HN Hm.
  apply init_done in H
    as (c' & d' & Hc & _ & Hd' & _ & _ & Hcat & Hdist & Hn & He & _).
  injection Hc as <-. rewrite Hd in Hd'. injection Hd' as <-.
  rewrite <- Hcat in Hn, He, HN. rewrite <- Hdist in Hm.
  destruct (mean_unfolded self Hn He HN) as (? & ? & _ & _ & _ & _ & Em).
  destruct (variance_unfolded self Hn He HN) as (? & ? & _ & _ & _ & _ & Ev).
  rewrite Hm in Em. split; [exact Em|].
  rewrite Ev. unfold control_dependencies, dist_mean. rewrite Hm. reflexivity.
Qed.

Lemma moments_raise_with_the_base_witness :
  exists self σ',
    __init__ (PyCategorical scenario_categorical)
             (PyCategorical scenario_categorical)
             false true "Categorised" root two_lists = (Done self, σ') /\
    value (_mean self)
    = Fail (NotImplementedError "mean is not implemented: Categorical").
Proof.
  eexists _, _. split; [reflexivity|].
  exact (f_equal snd
    (proj1 (moments_raise_with_the_base scenario_categorical
       (PyCategorical scenario_categorical)
       (categorical.as_distribution scenario_categorical)
       false true "Categorised" root two_lists _ _ _
       eq_refl eq_refl ltac:(simpl; lia) eq_refl))).
Defined.

(** ** The assertions of an instance *)

(** X11.  The assertions an instance carries hold exactly when it was
    built without validation or the run-time batch shapes of the two
    components are equal; an instance built with validation and
    matching shapes computes as an unvalidated one does. *)
Theorem assertions_hold_iff_shapes_match c dist d va an nm ns σ self σ' :
  __init__ (PyCategorical c) dist va an nm ns σ = (Done self, σ') ->
  as_Distribution dist = Some d ->
  (run_assertions (_assertions self) = Done tt <->
   va = false \/
   categorical.batch_shape_tensor c = distribution.batch_shape_tensor d) /\
  (run_assertions (_assertions self) = Done tt ->
   forall A (block : Py (Node A)),
     control_dependencies (_assertions self) block = block).
Proof.
  intros H Hd.
  apply init_done in H
    as (c' & d' & Hc & _ & Hd' & _ & _ & _ & _ & _ & _ & Has & _).
  injection Hc as <-. rewrite Hd in Hd'. injection Hd' as <-.
  rewrite Has. split.
  - destruct va; cbn [shape_assertions run_assertions].
    + split.
      * intros Hrun. right.
        destruct (decide (categorical.batch_shape_tensor c
                          = distribution.batch_shape_tensor d)) as [E|Hne];
          [exact E|].
        pose proof (shape_assertions_fail c d Hne) as Hf.
        cbn [shape_assertions run_assertions] in Hf. congruence.
      * intros [Hf|E]; [discriminate|].
        unfold assert_equal. cbn [holds message]. rewrite E.
        now rewrite !bool_decide_eq_true_2.
    + split; [now left | reflexivity].
  - intros Hrun A block. unfold control_dependencies. rewrite Hrun.
    cbn [obind]. destruct block as [t [n|e]]; cbn [bind ret]; [|reflexivity].
    now rewrite app_nil_r.
Qed.

Lemma assertions_hold_iff_shapes_match_witness :
  exists self σ',
    __init__ (PyCategorical (uniform_categorical [3%nat] 2 1%positive))
             (PyDistribution (exponential [3%nat] 2%positive))
             true true "Categorised" root two_lists = (Done self, σ') /\
    run_assertions (_assertions self) = Done tt.
Proof.
  destruct (assertions_hold_iff_shapes_match
              (uniform_categorical [3%nat] 2 1%positive)
              (PyDistribution (exponential [3%nat] 2%positive))
              (exponential [3%nat] 2%positive)
              true true "Categorised" root two_lists _ _ eq_refl eq_refl)
    as [[_ Hiff] _].
  eexists _, _. split; [reflexivity|].
  apply Hiff. right. reflexivity.
Defined.

(** ** More on the graph-parents lists *)

Lemma list_at_iadd_same (σ : store) (target source : loc) :
  list_at (list_iadd σ target source) target
  = list_at σ target ++ list_at σ source.
Proof. unfold list_iadd. unfold list_at at 1. now rewrite lookup_insert_eq. Qed.

Lemma list_at_iadd_other (σ : store) (target source l : loc) :
  l <> target -> list_at (list_iadd σ target source) l = list_at σ l.
Proof.
  intros Hl. unfold list_iadd. unfold list_at at 1.
  now rewrite lookup_insert_ne by congruence.
Qed.

(** X12.  Construction is not idempotent on the store: building a second
    instance from the same two components appends the base component's
    graph parents to the categorical's list once more, and the first
    instance, which shares that list, sees them too. *)
Theorem construction_accumulates_graph_parents
    c dist d va an nm ns va' an' nm' ns' σ self1 σ1 self2 σ2 :
  __init__ (PyCategorical c) dist va an nm ns σ = (Done self1, σ1) ->
  __init__ (PyCategorical c) dist va' an' nm' ns' σ1 = (Done self2, σ2) ->
  as_Distribution dist = Some d ->
  categorical._graph_parents c <> distribution._graph_parents d ->
  let lc := categorical._graph_parents c in
  let ld := distribution._graph_parents d in
  list_at σ2 lc = list_at σ lc ++ list_at σ ld ++ list_at σ ld /\
  graph_parents (base_init self1) = lc /\
  graph_parents (base_init self2) = lc /\
  list_at σ2 ld = list_at σ ld.
Proof.
  intros H1 H2 Hd Hne.
  apply init_done in H1
    as (c1 & d1 & Hc1 & _ & Hd1 & _ & _ & _ & _ & _ & _ & _ & _ & Hg1 & _ & _ & ->).
  apply init_done in H2
    as (c2 & d2 & Hc2 & _ & Hd2 & _ & _ & _ & _ & _ & _ & _ & _ & Hg2 & _ & _ & ->).
  injection Hc1 as <-. injection Hc2 as <-.
  rewrite Hd in Hd1, Hd2. injection Hd1 as <-. injection Hd2 as <-.
  cbv zeta. split; [|split; [exact Hg1|split; [exact Hg2|]]].
  - rewrite list_at_iadd_same, list_at_iadd_same.
    rewrite list_at_iadd_other by congruence.
    now rewrite <- app_assoc.
  - now rewrite !list_at_iadd_other by congruence.
Qed.

Lemma construction_accumulates_graph_parents_witness :
  exists self1 σ1 self2 σ2,
    __init__ (PyCategorical scenario_categorical) (PyDistribution point_mass_at_1)
             false true "Categorised" root two_lists = (Done self1, σ1) /\
    __init__ (PyCategorical scenario_categorical) (PyDistribution point_mass_at_1)
             false true "Categorised" root σ1 = (Done self2, σ2) /\
    list_at σ2 1%positive = [10; 20; 21; 20; 21]%nat.
Proof.
  eexists _, _, _, _. split; [reflexivity|]. split; [reflexivity|].
  exact (proj1 (construction_accumulates_graph_parents scenario_categorical
           (PyDistribution point_mass_at_1) point_mass_at_1
           false true "Categorised" root false true "Categorised" root
           two_lists _ _ _ _ eq_refl eq_refl eq_refl ltac:(discriminate))).
Defined.

(** A categorical seen as a distribution has the batch shape it has as a
    categorical. *)
Lemma static_mismatch_self c :
  static_mismatch c (categorical.as_distribution c) = false.
Proof.
  unfold static_mismatch. cbn.
  rewrite !bool_decide_eq_true_2 by reflexivity. cbn [negb].
  now rewrite !andb_false_r.
Qed.

(** X13.  A [Categorical] is itself a [Distribution]: handed over as
    both components it is accepted (when its class count is static and
    the name is a valid scope name), the base component of the instance
    is that categorical, and the in-place extension of its graph-parents
    list by itself doubles the list. *)
Theorem categorical_as_its_own_base c va an nm ns σ :
  categorical.num_classes_static c = true ->
  valid_scope_name ns nm = true ->
  exists self σ',
    __init__ (PyCategorical c) (PyCategorical c) va an nm ns σ = (Done self, σ') /\
    dist self = categorical.as_distribution c /\
    cat self = c /\
    list_at σ' (categorical._graph_parents c)
    = list_at σ (categorical._graph_parents c)
      ++ list_at σ (categorical._graph_parents c).
Proof.
  intros Hs Hname.
  destruct (init_succeeds c (PyCategorical c) (categorical.as_distribution c)
              va an nm ns σ eq_refl eq_refl ltac:(discriminate) Hs Hname
              (fun _ => static_mismatch_self c)) as (self & E).
  exists self. eexists. split; [exact E|].
  apply init_done in E
    as (c' & d' & Hc & _ & Hd' & _ & _ & Hcat & Hdist & _).
  injection Hc as <-. injection Hd' as <-.
  split; [exact Hdist|]. split; [exact Hcat|].
  apply list_at_iadd_same.
Qed.

Lemma categorical_as_its_own_base_witness :
  exists self σ',
    __init__ (PyCategorical scenario_categorical)
             (PyCategorical scenario_categorical)
             false true "Categorised" root two_lists = (Done self, σ') /\
    list_at σ' 1%positive = [10; 10]%nat.
Proof.
  destruct (categorical_as_its_own_base scenario_categorical
              false true "Categorised" root two_lists eq_refl eq_refl)
    as (self & σ' & E & _ & _ & Hl).
  exists self, σ'. split; [exact E | exact Hl].
Defined.

(** ** Shapes that do not broadcast *)




